(** * ecom-web3 frontend: the orchestration logic of [App.js]

    A shallow embedding of the React component [App]
    (src/ecommerce-frontend/src/App.js): its state hooks, its asynchronous
    handlers and its render function, followed by the properties the
    specification states about them.

    - JavaScript values are the primitives the component handles
      ([undefined], [null], strings, numbers).
    - An [async] handler is a term of the effect monad [Prog]: state
      setters, [console.error], awaited axios calls, [setTimeout], and
      exceptions with [try]/[catch].
    - [exec] runs one handler invocation against a server that answers
      each request with a latency and an outcome, and records the events
      (requests issued and settled, timers set and fired) with their
      times. *)

From Stdlib Require Import String Ascii List NArith Bool Lia.
Import ListNotations.
Open Scope string_scope.

(** ** JavaScript values *)

(** A number is kept as the text JavaScript prints for it (["9.99"],
    ["12"], ["0"], ["NaN"]): the component only prints numbers, tests
    them for truthiness and passes them on. *)
Inductive JsVal : Type :=
| JUndefined
| JNull
| JStr (s : string)
| JNum (text : string).

(** Conversion in a template literal, [`${v}`]. *)
Definition to_string (v : JsVal) : string :=
  match v with
  | JUndefined => "undefined"
  | JNull => "null"
  | JStr s => s
  | JNum text => text
  end.

(** Truthiness, as tested by [v ? a : b] and [if (v)]. *)
Definition truthy (v : JsVal) : bool :=
  match v with
  | JUndefined | JNull => false
  | JStr s => negb (s =? "")
  | JNum text => negb ((text =? "0") || (text =? "NaN"))
  end.

(** ** Data of the HTTP contract *)

Record Product : Type := {
  product_id : JsVal;
  product_name : JsVal;
  product_price : JsVal
}.

(** [response.data] of [GET /api/products]. *)
Record Catalog : Type := {
  data_products : list Product;
  data_cacheStatus : JsVal
}.

(** *** [parseFloat]

    The global function of the language, on strings held as UTF-8:
    the argument is converted with [to_string], white space and line
    terminators are trimmed off its start, and the longest prefix that is
    a decimal literal (sign, digits, fraction, exponent, or [Infinity])
    gives the number; without such a prefix the result is NaN. *)

(** A number made by [parseFloat]: NaN, or the number a decimal literal
    denotes (["4.50"] and ["4.5"] denote the same number). *)
Inductive JsNumber : Type :=
| NaN
| NumberOf (literal : string).

Definition is_digit (a : ascii) : bool :=
  Nat.leb 48 (nat_of_ascii a) && Nat.leb (nat_of_ascii a) 57.

(** The digits at the head of a string, and what follows them. *)
Fixpoint digits (s : string) : string * string :=
  match s with
  | EmptyString => (EmptyString, EmptyString)
  | String a rest =>
      if is_digit a
      then let (d, r) := digits rest in (String a d, r)
      else (EmptyString, s)
  end.

(** TAB, LF, VT, FF, CR and the space. *)
Definition is_ascii_space (a : ascii) : bool :=
  let n := nat_of_ascii a in
  (Nat.leb 9 n && Nat.leb n 13) || Nat.eqb n 32.

(** The other white space and line terminators of the language, by the
    bytes of their encoding: U+1680, U+2000 to U+200A, U+2028, U+2029,
    U+202F, U+205F, U+3000, U+FEFF (three bytes each), and U+00A0 (two
    bytes). *)
Definition is_wide_space (a b c : nat) : bool :=
  (Nat.eqb a 225 && Nat.eqb b 154 && Nat.eqb c 128)
  || (Nat.eqb a 226 && Nat.eqb b 128
      && ((Nat.leb 128 c && Nat.leb c 138)
          || Nat.eqb c 168 || Nat.eqb c 169 || Nat.eqb c 175))
  || (Nat.eqb a 226 && Nat.eqb b 129 && Nat.eqb c 159)
  || (Nat.eqb a 227 && Nat.eqb b 128 && Nat.eqb c 128)
  || (Nat.eqb a 239 && Nat.eqb b 187 && Nat.eqb c 191).

Definition is_nbsp (a b : nat) : bool := Nat.eqb a 194 && Nat.eqb b 160.

(** [TrimString(s, start)]. *)
Fixpoint trim_start (s : string) : string :=
  match s with
  | EmptyString => EmptyString
  | String a rest =>
      if is_ascii_space a then trim_start rest
      else
        match rest with
        | String b rest2 =>
            if is_nbsp (nat_of_ascii a) (nat_of_ascii b)
            then trim_start rest2
            else
              match rest2 with
              | String c rest3 =>
                  if is_wide_space (nat_of_ascii a) (nat_of_ascii b) (nat_of_ascii c)
                  then trim_start rest3
                  else s
              | EmptyString => s
              end
        | EmptyString => s
        end
  end.

(** The exponent part at the head of a string ([e] or [E], an optional
    sign, at least one digit), or nothing. *)
Definition exponent_part (s : string) : string :=
  match s with
  | String e rest =>
      if Ascii.eqb e "e" || Ascii.eqb e "E"
      then
        let (sign, unsigned) :=
          match rest with
          | String c rest2 =>
              if Ascii.eqb c "+" || Ascii.eqb c "-"
              then (String c EmptyString, rest2)
              else (EmptyString, rest)
          | EmptyString => (EmptyString, rest)
          end in
        let (d, _) := digits unsigned in
        if String.eqb d "" then EmptyString else String e (sign ++ d)
      else EmptyString
  | EmptyString => EmptyString
  end.

(** The longest prefix that is an unsigned decimal literal. *)
Definition unsigned_literal (s : string) : option string :=
  if String.prefix "Infinity" s then Some "Infinity"
  else
    let (whole, after_whole) := digits s in
    match after_whole with
    | String "." after_dot =>
        let (fraction, after_fraction) := digits after_dot in
        if String.eqb whole "" && String.eqb fraction "" then None
        else Some (whole ++ "." ++ fraction ++ exponent_part after_fraction)
    | _ =>
        if String.eqb whole "" then None
        else Some (whole ++ exponent_part after_whole)
    end.

(** The longest prefix that is a decimal literal. *)
Definition decimal_literal (s : string) : option string :=
  match s with
  | String c rest =>
      if Ascii.eqb c "+" || Ascii.eqb c "-"
      then option_map (String c) (unsigned_literal rest)
      else unsigned_literal s
  | EmptyString => None
  end.

Definition parseFloat (v : JsVal) : JsNumber :=
  match decimal_literal (trim_start (to_string v)) with
  | Some literal => NumberOf literal
  | None => NaN
  end.

(** The body [{ name: productName, price: parseFloat(productPrice) }]
    handed to axios, which sends it as JSON (there NaN and the infinities
    are written [null]). *)
Record Body : Type := {
  body_name : JsVal;
  body_price : JsNumber
}.

(** [error.response.data]: absent ([null]/[undefined]), or a value whose
    [message] property reads as [m] ([JUndefined] when it has none). *)
Inductive ErrData : Type :=
| DataNullish
| DataWith (m : JsVal).

(** A rejected axios call: [error.message], and [error.response] when
    the server answered. *)
Record AxiosError : Type := {
  axios_message : string;
  axios_response : option ErrData
}.

Inductive JsError : Type :=
| AxiosErr (e : AxiosError)
| TypeError (msg : string).

Definition error_message (e : JsError) : string :=
  match e with
  | AxiosErr a => axios_message a
  | TypeError msg => msg
  end.

Definition error_response (e : JsError) : option ErrData :=
  match e with
  | AxiosErr a => axios_response a
  | TypeError _ => None
  end.

Inductive Method : Type := GET | POST | PUT | DELETE.

(** The calls the component makes, indexed by the type of
    [response.data] of a resolved call (spec section 6). *)
Inductive Request : Type -> Type :=
| ListProducts : Request Catalog
| CreateProduct (b : Body) : Request Product
| UpdateProduct (id : JsVal) (b : Body) : Request Product
| DeleteProduct (id : JsVal) : Request unit
| FetchQueue : Request (list string)
| ClearCache : Request unit.

(** Method, path below [REACT_APP_BACKEND_SERVICE], and body. *)
Record Wire : Type := {
  wire_method : Method;
  wire_path : string;
  wire_body : option Body
}.

Definition wire {R : Type} (r : Request R) : Wire :=
  match r with
  | ListProducts => {| wire_method := GET; wire_path := "/api/products"; wire_body := None |}
  | CreateProduct b => {| wire_method := POST; wire_path := "/api/products"; wire_body := Some b |}
  | UpdateProduct id b =>
      {| wire_method := PUT; wire_path := "/api/products/" ++ to_string id; wire_body := Some b |}
  | DeleteProduct id =>
      {| wire_method := DELETE; wire_path := "/api/products/" ++ to_string id; wire_body := None |}
  | FetchQueue => {| wire_method := GET; wire_path := "/api/queue/product_queue"; wire_body := None |}
  | ClearCache => {| wire_method := GET; wire_path := "/api/cache/clear"; wire_body := None |}
  end.

(** ** Component state: the [useState] hooks of [App] *)

Record CacheTestResults : Type := {
  firstFetchStatus : string;
  secondFetchStatus : string;
  overallMessage : string
}.

Record State : Type := {
  products : list Product;
  loading : bool;
  error : JsVal;
  productName : JsVal;
  productPrice : JsVal;
  selectedProductId : JsVal;
  responseMessage : JsVal;
  queueMessages : list string;
  cacheTestResults : CacheTestResults
}.

Definition initial_state : State := {|
  products := [];
  loading := true;
  error := JNull;
  productName := JStr "";
  productPrice := JStr "";
  selectedProductId := JNull;
  responseMessage := JStr "";
  queueMessages := [];
  cacheTestResults :=
    {| firstFetchStatus := ""; secondFetchStatus := ""; overallMessage := "" |}
|}.

Definition setProducts (v : list Product) (s : State) : State :=
  {| products := v; loading := loading s; error := error s;
     productName := productName s; productPrice := productPrice s;
     selectedProductId := selectedProductId s;
     responseMessage := responseMessage s; queueMessages := queueMessages s;
     cacheTestResults := cacheTestResults s |}.

Definition setLoading (v : bool) (s : State) : State :=
  {| products := products s; loading := v; error := error s;
     productName := productName s; productPrice := productPrice s;
     selectedProductId := selectedProductId s;
     responseMessage := responseMessage s; queueMessages := queueMessages s;
     cacheTestResults := cacheTestResults s |}.

Definition setError (v : JsVal) (s : State) : State :=
  {| products := products s; loading := loading s; error := v;
     productName := productName s; productPrice := productPrice s;
     selectedProductId := selectedProductId s;
     responseMessage := responseMessage s; queueMessages := queueMessages s;
     cacheTestResults := cacheTestResults s |}.

Definition setProductName (v : JsVal) (s : State) : State :=
  {| products := products s; loading := loading s; error := error s;
     productName := v; productPrice := productPrice s;
     selectedProductId := selectedProductId s;
     responseMessage := responseMessage s; queueMessages := queueMessages s;
     cacheTestResults := cacheTestResults s |}.

Definition setProductPrice (v : JsVal) (s : State) : State :=
  {| products := products s; loading := loading s; error := error s;
     productName := productName s; productPrice := v;
     selectedProductId := selectedProductId s;
     responseMessage := responseMessage s; queueMessages := queueMessages s;
     cacheTestResults := cacheTestResults s |}.

Definition setSelectedProductId (v : JsVal) (s : State) : State :=
  {| products := products s; loading := loading s; error := error s;
     productName := productName s; productPrice := productPrice s;
     selectedProductId := v;
     responseMessage := responseMessage s; queueMessages := queueMessages s;
     cacheTestResults := cacheTestResults s |}.

Definition setResponseMessage (v : JsVal) (s : State) : State :=
  {| products := products s; loading := loading s; error := error s;
     productName := productName s; productPrice := productPrice s;
     selectedProductId := selectedProductId s;
     responseMessage := v; queueMessages := queueMessages s;
     cacheTestResults := cacheTestResults s |}.

Definition setQueueMessages (v : list string) (s : State) : State :=
  {| products := products s; loading := loading s; error := error s;
     productName := productName s; productPrice := productPrice s;
     selectedProductId := selectedProductId s;
     responseMessage := responseMessage s; queueMessages := v;
     cacheTestResults := cacheTestResults s |}.

(** [setCacheTestResults(prev => f(prev))]; the direct form
    [setCacheTestResults(v)] is the constant function. *)
Definition setCacheTestResults (f : CacheTestResults -> CacheTestResults)
    (s : State) : State :=
  {| products := products s; loading := loading s; error := error s;
     productName := productName s; productPrice := productPrice s;
     selectedProductId := selectedProductId s;
     responseMessage := responseMessage s; queueMessages := queueMessages s;
     cacheTestResults := f (cacheTestResults s) |}.

(** The object spreads [{ ...prev, field: v }]. *)
Definition with_firstFetchStatus (v : string) (c : CacheTestResults) :=
  {| firstFetchStatus := v; secondFetchStatus := secondFetchStatus c;
     overallMessage := overallMessage c |}.

Definition with_secondFetchStatus (v : string) (c : CacheTestResults) :=
  {| firstFetchStatus := firstFetchStatus c; secondFetchStatus := v;
     overallMessage := overallMessage c |}.

Definition with_overallMessage (v : string) (c : CacheTestResults) :=
  {| firstFetchStatus := firstFetchStatus c;
     secondFetchStatus := secondFetchStatus c; overallMessage := v |}.

(** ** The effect monad of the handlers *)

Inductive Prog (A : Type) : Type :=
| Ret (a : A)
| Throw (e : JsError)
| SetState (f : State -> State) (k : Prog A)
| ConsoleError (label : string) (k : Prog A)
| Await (R : Type) (r : Request R) (k : AxiosError + R -> Prog A)
| SetTimeout (cb : Prog unit) (ms : N) (k : Prog A).

Arguments Ret {A} a.
Arguments Throw {A} e.
Arguments SetState {A} f k.
Arguments ConsoleError {A} label k.
Arguments Await {A R} r k.
Arguments SetTimeout {A} cb ms k.

Fixpoint bind {A B : Type} (p : Prog A) (f : A -> Prog B) : Prog B :=
  match p with
  | Ret a => f a
  | Throw e => Throw e
  | SetState g k => SetState g (bind k f)
  | ConsoleError l k => ConsoleError l (bind k f)
  | Await r k => Await r (fun o => bind (k o) f)
  | SetTimeout cb ms k => SetTimeout cb ms (bind k f)
  end.

(** [try { p } catch (error) { h error }]. A timer callback registered
    inside [p] runs later, outside the [try]. *)
Fixpoint try_catch {A : Type} (p : Prog A) (h : JsError -> Prog A) : Prog A :=
  match p with
  | Ret a => Ret a
  | Throw e => h e
  | SetState g k => SetState g (try_catch k h)
  | ConsoleError l k => ConsoleError l (try_catch k h)
  | Await r k => Await r (fun o => try_catch (k o) h)
  | SetTimeout cb ms k => SetTimeout cb ms (try_catch k h)
  end.

Declare Scope prog_scope.
Delimit Scope prog_scope with prog.
Bind Scope prog_scope with Prog.

Notation "x <- p ;; q" := (bind p (fun x => q))
  (at level 61, p at next level, right associativity) : prog_scope.
Notation "p ;; q" := (bind p (fun _ => q))
  (at level 61, right associativity) : prog_scope.
Notation "'try' p 'catch' x '=>' h" := (try_catch p (fun x => h))
  (at level 62, p at level 61, x name, h at level 61) : prog_scope.

(** A state setter call. *)
Definition set (f : State -> State) : Prog unit := SetState f (Ret tt).

Definition console_error (label : string) : Prog unit :=
  ConsoleError label (Ret tt).

(** [await axios.get(url)] and the like: the promise resolves with the
    response or rejects, and a rejection is thrown at the [await]. *)
Definition axios {R : Type} (r : Request R) : Prog R :=
  Await r (fun o =>
    match o with
    | inr response => Ret response
    | inl e => Throw (AxiosErr e)
    end).

(** [setTimeout(cb, ms)]. *)
Definition setTimeout (cb : Prog unit) (ms : N) : Prog unit :=
  SetTimeout cb ms (Ret tt).

(** [error.response.data.message], for a present [error.response]. *)
Definition data_message (d : ErrData) : Prog JsVal :=
  match d with
  | DataNullish =>
      Throw (TypeError "Cannot read properties of undefined (reading 'message')")
  | DataWith m => Ret m
  end.

(** ** Running one handler invocation *)

Inductive Event : Type :=
| Issued (n : nat) (w : Wire) (time : N)
| Settled (n : nat) (ok : bool) (time : N)
| Logged (label : string)
| TimerSet (ms : N) (time : N)
| TimerFired (time : N)
| Unhandled (e : JsError).

(** The environment of a run: the server answers the [n]-th request of
    the run after a latency, with a rejection or with data; a timer fires
    [timer_lag] after it is due (never early). *)
Record Env : Type := {
  server : nat -> forall R, Request R -> N * (AxiosError + R);
  timer_lag : N
}.

Record World : Type := {
  state : State;
  clock : N;
  issued : nat;
  trace : list Event
}.

Definition with_state (f : State -> State) (w : World) : World :=
  {| state := f (state w); clock := clock w; issued := issued w;
     trace := trace w |}.

Definition log (e : Event) (w : World) : World :=
  {| state := state w; clock := clock w; issued := issued w;
     trace := trace w ++ [e] |}.

Definition at_time (t : N) (w : World) : World :=
  {| state := state w; clock := t; issued := issued w; trace := trace w |}.

Definition next_request (w : World) : World :=
  {| state := state w; clock := clock w; issued := S (issued w);
     trace := trace w |}.

Definition is_resolved {R : Type} (o : AxiosError + R) : bool :=
  match o with inr _ => true | inl _ => false end.

(** The run of a handler with no other handler interleaved. A timer
    callback runs once the task that registered it has come to its end,
    not before its delay has passed; in [App.js] the one [setTimeout] is
    the last statement of its task. The promise of an [async] callback is
    dropped by [setTimeout], so its rejection is unhandled. *)
Fixpoint exec {A : Type} (env : Env) (p : Prog A) (w : World) : World * (JsError + A) :=
  match p with
  | Ret a => (w, inr a)
  | Throw e => (w, inl e)
  | SetState f k => exec env k (with_state f w)
  | ConsoleError l k => exec env k (log (Logged l) w)
  | Await r k =>
      let n := issued w in
      let reply := server env n _ r in
      let w1 := next_request (log (Issued n (wire r) (clock w)) w) in
      let t := (clock w + fst reply)%N in
      let w2 := log (Settled n (is_resolved (snd reply)) t) (at_time t w1) in
      exec env (k (snd reply)) w2
  | SetTimeout cb ms k =>
      let w1 := log (TimerSet ms (clock w)) w in
      let (w2, r) := exec env k w1 in
      let t := (N.max (clock w2) (clock w + ms) + timer_lag env)%N in
      let w3 := log (TimerFired t) (at_time t w2) in
      let (w4, r') := exec env cb w3 in
      (match r' with
       | inl e => log (Unhandled e) w4
       | inr _ => w4
       end, r)
  end.

(** ** The handlers of [App] *)

Open Scope prog_scope.

(** [fetchProducts] (App.js 26-39). *)
Definition fetchProducts : Prog JsVal :=
  try (response <- axios ListProducts ;;
       set (setProducts (data_products response)) ;;
       set (setLoading false) ;;
       Ret (data_cacheStatus response))
  catch error =>
      (console_error "Error fetching products:" ;;
       set (setError (JStr ("Error fetching products: " ++ error_message error
                            ++ ". Please try again later."))) ;;
       set (setLoading false) ;;
       Ret JNull).

(** [handleAddOrUpdateProduct] (App.js 41-67). The handler is the
    closure of the render it was attached by: [s] is the state of that
    render, and [selectedProductId], [productName] and [productPrice]
    keep these values across the [await]s. *)
Definition handleAddOrUpdateProduct (s : State) : Prog unit :=
  let body := {| body_name := productName s;
                 body_price := parseFloat (productPrice s) |} in
  try (response <- (if truthy (selectedProductId s)
                    then axios (UpdateProduct (selectedProductId s) body)
                    else axios (CreateProduct body)) ;;
       set (setResponseMessage
              (JStr ("Product "
                     ++ (if truthy (selectedProductId s) then "updated" else "added")
                     ++ ": " ++ to_string (product_name response)
                     ++ " - $" ++ to_string (product_price response)))) ;;
       set (setProductName (JStr "")) ;;
       set (setProductPrice (JStr "")) ;;
       set (setSelectedProductId JNull) ;;
       _ <- fetchProducts ;;
       Ret tt)
  catch error =>
      (console_error ("Error "
                      ++ (if truthy (selectedProductId s) then "updating" else "adding")
                      ++ " product:") ;;
       message <- match error_response error with
                  | Some d => data_message d
                  | None => Ret (JStr "Failed to perform operation")
                  end ;;
       set (setResponseMessage message)).

(** [handleDeleteProduct] (App.js 69-81). *)
Definition handleDeleteProduct (id : JsVal) : Prog unit :=
  try (axios (DeleteProduct id) ;;
       set (setResponseMessage (JStr "Product deleted successfully")) ;;
       _ <- fetchProducts ;;
       Ret tt)
  catch error =>
      (console_error "Error deleting product:" ;;
       message <- match error_response error with
                  | Some d => data_message d
                  | None => Ret (JStr "Failed to delete product")
                  end ;;
       set (setResponseMessage message)).

(** [handleSelectProduct] (App.js 83-87). *)
Definition handleSelectProduct (product : Product) : Prog unit :=
  set (setSelectedProductId (product_id product)) ;;
  set (setProductName (product_name product)) ;;
  set (setProductPrice (product_price product)).

(** [fetchQueueMessages] (App.js 90-98). *)
Definition fetchQueueMessages : Prog unit :=
  try (response <- axios FetchQueue ;;
       set (setQueueMessages response))
  catch error =>
      (console_error "Error fetching messages from queue:" ;;
       set (setQueueMessages [])).

(** [clearQueueMessages] (App.js 100-103). *)
Definition clearQueueMessages : Prog unit :=
  set (setQueueMessages []) ;;
  set (setResponseMessage (JStr "Queue messages cleared")).

(** The fixed delay of the probe, in milliseconds. *)
Definition probe_delay : N := 2000.

(** The callback handed to [setTimeout] by the probe (App.js 135-147). *)
Definition secondFetch : Prog unit :=
  set (setCacheTestResults
         (with_secondFetchStatus "Fetching products again (cache hit)...")) ;;
  secondStatus <- fetchProducts ;;
  set (setCacheTestResults (fun prev =>
         with_overallMessage "Cache test completed. Check the statuses above."
           (with_secondFetchStatus
              ("Second Fetch: Cache " ++ to_string secondStatus) prev))).

(** [testRedisCache] (App.js 105-155). *)
Definition testRedisCache : Prog unit :=
  try (set (setCacheTestResults (fun _ =>
              {| firstFetchStatus := ""; secondFetchStatus := "";
                 overallMessage := "Clearing Redis cache..." |})) ;;
       axios ClearCache ;;
       set (setCacheTestResults
              (with_overallMessage "Redis cache cleared. Testing cache...")) ;;
       set (setCacheTestResults
              (with_firstFetchStatus
                 "Fetching products from database (cache miss)...")) ;;
       firstStatus <- fetchProducts ;;
       set (setCacheTestResults
              (with_firstFetchStatus
                 ("First Fetch: Cache " ++ to_string firstStatus))) ;;
       setTimeout secondFetch probe_delay)
  catch error =>
      (console_error "Error testing Redis cache:" ;;
       set (setCacheTestResults
              (with_overallMessage "Error testing Redis cache"))).

(** [clearRedisCache] (App.js 158-167). *)
Definition clearRedisCache : Prog unit :=
  try (axios ClearCache ;;
       set (setCacheTestResults
              (with_overallMessage "Redis cache cleared successfully")))
  catch error =>
      (console_error "Error clearing Redis cache:" ;;
       set (setCacheTestResults
              (with_overallMessage "Failed to clear Redis cache"))).

Close Scope prog_scope.

(** ** Rendering (App.js 169-243) *)

Inductive Control : Type :=
| EditButton (product : Product)
| DeleteButton (id : JsVal)
| NameInput
| PriceInput
| SubmitButton
| FetchMessagesButton
| ClearMessagesButton
| CacheTestButton
| ClearCacheButton.

(** The page below the two early returns. *)
Record Page : Type := {
  page_rows : list Product;
  page_heading : string;
  page_name : JsVal;
  page_price : JsVal;
  page_submit : string;
  page_message : JsVal;
  page_queue : list string;
  page_cache : CacheTestResults
}.

Inductive View : Type :=
| LoadingView
| ErrorView (text : JsVal)
| PageView (p : Page).

Definition render (s : State) : View :=
  if loading s then LoadingView
  else if truthy (error s) then ErrorView (error s)
  else PageView
    {| page_rows := products s;
       page_heading :=
         if truthy (selectedProductId s) then "Update Product" else "Add New Product";
       page_name := productName s;
       page_price := productPrice s;
       page_submit :=
         (if truthy (selectedProductId s) then "Update" else "Add") ++ " Product";
       page_message := responseMessage s;
       page_queue := queueMessages s;
       page_cache := cacheTestResults s |}.

(** The elements of a view that carry an event handler. *)
Definition controls (v : View) : list Control :=
  match v with
  | LoadingView => []
  | ErrorView _ => []
  | PageView p =>
      flat_map (fun product =>
                  [EditButton product; DeleteButton (product_id product)])
               (page_rows p)
      ++ [NameInput; PriceInput; SubmitButton;
          FetchMessagesButton; ClearMessagesButton;
          CacheTestButton; ClearCacheButton]
  end.

(** What the user can do to the page: click a button, or type into an
    input. [TypePrice] carries the number [parseFloat] makes of the typed
    text, as JavaScript prints it. *)
Inductive Interaction : Type :=
| ClickEdit (product : Product)
| ClickDelete (id : JsVal)
| TypeName (text : string)
| TypePrice (number : string)
| ClickSubmit
| ClickFetchMessages
| ClickClearMessages
| ClickTestCache
| ClickClearCache.

(** The control an interaction goes through. *)
Definition target (i : Interaction) : Control :=
  match i with
  | ClickEdit product => EditButton product
  | ClickDelete id => DeleteButton id
  | TypeName _ => NameInput
  | TypePrice _ => PriceInput
  | ClickSubmit => SubmitButton
  | ClickFetchMessages => FetchMessagesButton
  | ClickClearMessages => ClearMessagesButton
  | ClickTestCache => CacheTestButton
  | ClickClearCache => ClearCacheButton
  end.

(** The [onClick] and [onChange] handlers attached by the render of
    state [s]. *)
Definition handler (s : State) (i : Interaction) : Prog unit :=
  match i with
  | ClickEdit product => handleSelectProduct product
  | ClickDelete id => handleDeleteProduct id
  | TypeName text => set (setProductName (JStr text))
  | TypePrice number => set (setProductPrice (JNum number))
  | ClickSubmit => handleAddOrUpdateProduct s
  | ClickFetchMessages => fetchQueueMessages
  | ClickClearMessages => clearQueueMessages
  | ClickTestCache => testRedisCache
  | ClickClearCache => clearRedisCache
  end.

(** The component right after mounting: [useEffect] has called
    [fetchProducts] once. *)
Definition mount (env : Env) : World :=
  fst (exec env fetchProducts
         {| state := initial_state; clock := 0; issued := 0; trace := [] |}).

(** ** Observations on a run *)

Definition requests (tr : list Event) : list Wire :=
  flat_map (fun e => match e with Issued _ w _ => [w] | _ => [] end) tr.

Definition failures (tr : list Event) : list nat :=
  flat_map (fun e => match e with Settled n false _ => [n] | _ => [] end) tr.

Definition timers (tr : list Event) : list N :=
  flat_map (fun e => match e with TimerSet ms _ => [ms] | _ => [] end) tr.

(** The events of the network and of the timer. *)
Definition schedule (tr : list Event) : list Event :=
  filter (fun e => match e with
                   | Issued _ _ _ | Settled _ _ _ | TimerSet _ _ | TimerFired _ => true
                   | _ => false
                   end) tr.

(** The probe has failed: the message of the [catch] of [testRedisCache]. *)
Definition probe_failed (s : State) : Prop :=
  overallMessage (cacheTestResults s) = "Error testing Redis cache".

(** The probe has run to its end: the message of the timer callback. *)
Definition probe_done (s : State) : Prop :=
  overallMessage (cacheTestResults s)
  = "Cache test completed. Check the statuses above.".

(** ** Sample servers and states *)

Definition widget : Product :=
  {| product_id := JNum "1"; product_name := JStr "Widget";
     product_price := JNum "9.99" |}.

(** The price a sample server stores for a body: JSON carries NaN as
    [null], and a number by its literal. *)
Definition stored_price (n : JsNumber) : JsVal :=
  match n with
  | NaN => JNull
  | NumberOf literal => JNum literal
  end.

(** Data of a resolved call: the catalog holds [widget]; a created or
    updated product echoes the body; the queue holds two messages. *)
Definition sample_data {R : Type} (cacheStatus : JsVal) (r : Request R) : R :=
  match r in Request R return R with
  | ListProducts => {| data_products := [widget]; data_cacheStatus := cacheStatus |}
  | CreateProduct b =>
      {| product_id := JNum "2"; product_name := body_name b;
         product_price := stored_price (body_price b) |}
  | UpdateProduct id b =>
      {| product_id := id; product_name := body_name b;
         product_price := stored_price (body_price b) |}
  | DeleteProduct _ => tt
  | FetchQueue => ["created 1"; "created 2"]
  | ClearCache => tt
  end.

Definition network_error : AxiosError :=
  {| axios_message := "Network Error"; axios_response := None |}.

(** An error response whose body is [{ message: "Product not found" }]. *)
Definition not_found : AxiosError :=
  {| axios_message := "Request failed with status code 404";
     axios_response := Some (DataWith (JStr "Product not found")) |}.

(** An error response whose body has no [message] property. *)
Definition bare_500 : AxiosError :=
  {| axios_message := "Request failed with status code 500";
     axios_response := Some (DataWith JUndefined) |}.

(** Every request takes 30 ms; those numbered in [rejected] fail with
    [err], the others resolve, the catalog being a cache miss on the
    request numbered 1 and a hit otherwise. *)
Definition sample_env (rejected : list nat) (err : AxiosError) : Env :=
  {| server := fun n R r =>
       (30%N,
        if existsb (Nat.eqb n) rejected then inl err
        else inr (sample_data (JStr (if Nat.eqb n 1 then "miss" else "hit")) r));
     timer_lag := 4 |}.

(** The page is showing [widget], nothing selected. *)
Definition browsing : State :=
  setLoading false (setProducts [widget] initial_state).

(** [widget] has been picked for editing. *)
Definition editing : State :=
  setProductPrice (JNum "9.99")
    (setProductName (JStr "Widget") (setSelectedProductId (JNum "1") browsing)).

Definition world_of (s : State) : World :=
  {| state := s; clock := 0; issued := 0; trace := [] |}.

(** ** Notions used by the statements *)

(** The world a handler leaves behind, and the events its run added. *)
Definition after {A : Type} (env : Env) (p : Prog A) (w : World) : World :=
  fst (exec env p w).

Definition events_of {A : Type} (env : Env) (p : Prog A) (w : World) : list Event :=
  skipn (length (trace w)) (trace (after env p w)).

(** Outcome and latency of the request numbered [n], and of the request
    the server would answer next in world [w]. *)
Definition outcome_at {R : Type} (env : Env) (n : nat) (r : Request R)
    : AxiosError + R :=
  snd (server env n R r).

Definition latency_at {R : Type} (env : Env) (n : nat) (r : Request R) : N :=
  fst (server env n R r).

Definition outcome {R : Type} (env : Env) (w : World) (r : Request R) :=
  outcome_at env (issued w) r.

Definition latency {R : Type} (env : Env) (w : World) (r : Request R) :=
  latency_at env (issued w) r.

(** A program that sets no timer. *)
Inductive timer_free {A : Type} : Prog A -> Prop :=
| tf_Ret a : timer_free (Ret a)
| tf_Throw e : timer_free (Throw e)
| tf_SetState f k : timer_free k -> timer_free (SetState f k)
| tf_ConsoleError l k : timer_free k -> timer_free (ConsoleError l k)
| tf_Await R (r : Request R) k :
    (forall o, timer_free (k o)) -> timer_free (Await r k).

(** A program that comes to its end without suspending. *)
Inductive immediate {A : Type} : Prog A -> Prop :=
| im_Ret a : immediate (Ret a)
| im_Throw e : immediate (Throw e)
| im_SetState f k : immediate k -> immediate (SetState f k)
| im_ConsoleError l k : immediate k -> immediate (ConsoleError l k).

(** Every [setTimeout] of a program is the last thing its task does
    before it ends, and its callback sets no timer: the shape for which
    [exec] orders the events the way the event loop does. *)
Inductive timers_last : forall A : Type, Prog A -> Prop :=
| tl_Ret A a : timers_last A (Ret a)
| tl_Throw A e : timers_last A (Throw e)
| tl_SetState A f k : timers_last A k -> timers_last A (SetState f k)
| tl_ConsoleError A l k : timers_last A k -> timers_last A (ConsoleError l k)
| tl_Await A R (r : Request R) k :
    (forall o, timers_last A (k o)) -> timers_last A (Await r k)
| tl_SetTimeout A cb ms k :
    timer_free cb -> immediate k -> timers_last A (SetTimeout cb ms k).

Arguments timers_last {A} p.

(** The world once request [r] has settled. *)
Definition settle {R : Type} (env : Env) (w : World) (r : Request R) : World :=
  let t := (clock w + latency env w r)%N in
  {| state := state w;
     clock := t;
     issued := S (issued w);
     trace := trace w ++ [Issued (issued w) (wire r) (clock w);
                          Settled (issued w) (is_resolved (outcome env w r)) t] |}.

(** The world when the timer set in [w] fires. *)
Definition fire (env : Env) (ms : N) (w : World) : World :=
  let t := (N.max (clock w) (clock w + ms) + timer_lag env)%N in
  {| state := state w; clock := t; issued := issued w;
     trace := trace w ++ [TimerSet ms (clock w); TimerFired t] |}.

(** [fetchProducts] never throws: a rejected request is logged, stored in
    [error] and answered by [null]. *)
Definition fetched (env : Env) (w : World) : World * (JsError + JsVal) :=
  let w1 := settle env w ListProducts in
  match outcome env w ListProducts with
  | inr response =>
      (with_state (setLoading false)
         (with_state (setProducts (data_products response)) w1),
       inr (data_cacheStatus response))
  | inl e =>
      (with_state (setLoading false)
         (with_state
            (setError (JStr ("Error fetching products: " ++ axios_message e
                             ++ ". Please try again later.")))
            (log (Logged "Error fetching products:") w1)),
       inr JNull)
  end.

(** The statuses the specification declares for a catalog fetch. *)
Definition declared_cacheStatus : list JsVal :=
  [JStr "hit"; JStr "miss"; JStr "unknown"].

(** The request a submission sends from the render of state [s]: a PUT
    to the selected product when one is selected, a POST otherwise. *)
Definition submission (s : State) : Request Product :=
  let body := {| body_name := productName s;
                 body_price := parseFloat (productPrice s) |} in
  if truthy (selectedProductId s)
  then UpdateProduct (selectedProductId s) body
  else CreateProduct body.

(** The editor is in create mode when [selectedProductId] is falsy. *)
Definition create_mode (s : State) : Prop := truthy (selectedProductId s) = false.

Definition edit_mode (s : State) : Prop := truthy (selectedProductId s) = true.

(** The writes of the catalog, with their handler, their first request
    and the fallback message of their [catch]. *)
Inductive Mutation : Type :=
| Submit (s : State)
| Delete (id : JsVal).

Definition mutation_handler (m : Mutation) : Prog unit :=
  match m with
  | Submit s => handleAddOrUpdateProduct s
  | Delete id => handleDeleteProduct id
  end.

Definition mutation_rejected (env : Env) (w : World) (e : AxiosError)
    (m : Mutation) : Prop :=
  match m with
  | Submit s => outcome env w (submission s) = inl e
  | Delete id => outcome env w (DeleteProduct id) = inl e
  end.

Definition fallback (m : Mutation) : string :=
  match m with
  | Submit _ => "Failed to perform operation"
  | Delete _ => "Failed to delete product"
  end.

(** What the [catch] of a write does to the state for the error [e]:
    [setResponseMessage(error.response ? error.response.data.message :
    fallback)]; reading [message] off an absent [data] throws before the
    setter is reached. *)
Definition surfaced (fallback : string) (e : AxiosError) (s : State) : State :=
  match axios_response e with
  | None => setResponseMessage (JStr fallback) s
  | Some (DataWith m) => setResponseMessage m s
  | Some DataNullish => s
  end.

(** Two states that agree on everything but [responseMessage]. *)
Definition same_but_message (a b : State) : Prop :=
  products a = products b
  /\ loading a = loading b
  /\ error a = error b
  /\ productName a = productName b
  /\ productPrice a = productPrice b
  /\ selectedProductId a = selectedProductId b
  /\ queueMessages a = queueMessages b
  /\ cacheTestResults a = cacheTestResults b.

(** The scenario of the specification: [widget] is deleted while it is
    selected for editing, and the refreshed catalog no longer holds it. *)
Definition env_empty_catalog : Env :=
  {| server := fun n R r =>
       (30%N,
        inr (match r in Request R return R with
             | ListProducts => {| data_products := []; data_cacheStatus := JStr "miss" |}
             | r' => sample_data (JStr "miss") r'
             end));
     timer_lag := 0 |}.

(** Every state setter of a program, those of its timer callbacks
    included, maintains [P]. *)
Inductive keeps (P : State -> Prop) : forall A : Type, Prog A -> Prop :=
| keeps_Ret A a : keeps P A (Ret a)
| keeps_Throw A e : keeps P A (Throw e)
| keeps_SetState A f k :
    (forall s, P s -> P (f s)) -> keeps P A k -> keeps P A (SetState f k)
| keeps_ConsoleError A l k : keeps P A k -> keeps P A (ConsoleError l k)
| keeps_Await A R (r : Request R) k :
    (forall o, keeps P A (k o)) -> keeps P A (Await r k)
| keeps_SetTimeout A cb ms k :
    keeps P unit cb -> keeps P A k -> keeps P A (SetTimeout cb ms k).

Arguments keeps P {A} p.

(** The component shows the error text and nothing else. *)
Definition error_shown (s : State) : Prop :=
  loading s = false /\ truthy (error s) = true.

(** The operations that start with a request of their own, and what it
    means for that request to be rejected with [e]. *)
Inductive Operation : Type :=
| Mutate (m : Mutation)
| QueueFetch
| CacheClear
| ProbeRun.

Definition operation_handler (op : Operation) : Prog unit :=
  match op with
  | Mutate m => mutation_handler m
  | QueueFetch => fetchQueueMessages
  | CacheClear => clearRedisCache
  | ProbeRun => testRedisCache
  end.

Definition operation_rejected (env : Env) (w : World) (e : AxiosError)
    (op : Operation) : Prop :=
  match op with
  | Mutate m => mutation_rejected env w e m
  | QueueFetch => outcome env w FetchQueue = inl e
  | CacheClear | ProbeRun => outcome env w ClearCache = inl e
  end.

(** The first request of the operation resolves, and a catalog fetch the
    operation goes on to make is rejected with [e]: the refresh after a
    write, or the first or the second fetch of a probe run. *)
Definition refresh_rejected (env : Env) (w : World) (e : AxiosError)
    (op : Operation) : Prop :=
  let n := issued w in
  match op with
  | Mutate (Submit s) =>
      is_resolved (outcome env w (submission s)) = true
      /\ outcome_at env (S n) ListProducts = inl e
  | Mutate (Delete id) =>
      is_resolved (outcome env w (DeleteProduct id)) = true
      /\ outcome_at env (S n) ListProducts = inl e
  | ProbeRun =>
      is_resolved (outcome env w ClearCache) = true
      /\ (outcome_at env (S n) ListProducts = inl e
          \/ outcome_at env (S (S n)) ListProducts = inl e)
  | QueueFetch | CacheClear => False
  end.

(** The page is on screen, with its controls. *)
Definition page_shown (s : State) : Prop :=
  loading s = false /\ truthy (error s) = false.

(** ** Further notions: results, page text and sessions *)

(** The rejections a run left unhandled (those of timer callbacks). *)
Definition unhandled (tr : list Event) : list JsError :=
  flat_map (fun e => match e with Unhandled err => [err] | _ => [] end) tr.

(** What [fetchProducts] leaves alone: the editor, the message, the queue
    and the probe results. *)
Definition same_but_catalog (a b : State) : Prop :=
  productName a = productName b
  /\ productPrice a = productPrice b
  /\ selectedProductId a = selectedProductId b
  /\ responseMessage a = responseMessage b
  /\ queueMessages a = queueMessages b
  /\ cacheTestResults a = cacheTestResults b.

(** The first request of a write. *)
Definition mutation_wire (m : Mutation) : Wire :=
  match m with
  | Submit s => wire (submission s)
  | Delete id => wire (DeleteProduct id)
  end.

(** The rejection of the first request of a write, if it is rejected. *)
Definition mutation_error (env : Env) (w : World) (m : Mutation)
    : option AxiosError :=
  match m with
  | Submit s =>
      match outcome env w (submission s) with
      | inl e => Some e
      | inr _ => None
      end
  | Delete id =>
      match outcome env w (DeleteProduct id) with
      | inl e => Some e
      | inr _ => None
      end
  end.

(** The write an interaction starts, if it starts one. *)
Definition write_of (s : State) (i : Interaction) : option Mutation :=
  match i with
  | ClickSubmit => Some (Submit s)
  | ClickDelete id => Some (Delete id)
  | _ => None
  end.

(** The exception of [error.response.data.message] on an absent [data]. *)
Definition message_of_nothing : JsError :=
  TypeError "Cannot read properties of undefined (reading 'message')".

(** An error response that came without a body. *)
Definition empty_502 : AxiosError :=
  {| axios_message := "Request failed with status code 502";
     axios_response := Some DataNullish |}.

(** The items of the queue list (App.js 221-229): the messages, or one
    placeholder item when there is none. *)
Definition queue_lines (s : State) : list string :=
  match queueMessages s with
  | [] => ["No messages in queue"]
  | messages => messages
  end.

Definition jsval_eqb (a b : JsVal) : bool :=
  match a, b with
  | JUndefined, JUndefined => true
  | JNull, JNull => true
  | JStr x, JStr y => (x =? y)%string
  | JNum x, JNum y => (x =? y)%string
  | _, _ => false
  end.

Definition product_eqb (a b : Product) : bool :=
  jsval_eqb (product_id a) (product_id b)
  && jsval_eqb (product_name a) (product_name b)
  && jsval_eqb (product_price a) (product_price b).

Definition control_eqb (a b : Control) : bool :=
  match a, b with
  | EditButton p, EditButton q => product_eqb p q
  | DeleteButton x, DeleteButton y => jsval_eqb x y
  | NameInput, NameInput
  | PriceInput, PriceInput
  | SubmitButton, SubmitButton
  | FetchMessagesButton, FetchMessagesButton
  | ClearMessagesButton, ClearMessagesButton
  | CacheTestButton, CacheTestButton
  | ClearCacheButton, ClearCacheButton => true
  | _, _ => false
  end.

(** The control of the interaction is on screen. *)
Definition available (s : State) (i : Interaction) : bool :=
  existsb (control_eqb (target i)) (controls (render s)).

(** One interaction of the user: the handler attached by the current
    render runs to its end; an interaction whose control is not on screen
    cannot happen and changes nothing. *)
Definition interact (env : Env) (w : World) (i : Interaction) : World :=
  if available (state w) i then after env (handler (state w) i) w else w.

(** A session: interactions one after the other, each starting when the
    handler of the one before has come to its end. *)
Definition session (env : Env) (steps : list Interaction) (w : World) : World :=
  fold_left (interact env) steps w.

(** * Properties

    ** Basic facts about runs *)

Lemma skipn_length_app {A : Type} (l s : list A) : skipn (length l) (l ++ s) = s.
Proof. induction l as [|x l IH]; [reflexivity | exact IH]. Qed.

(** ** Sequencing

    A program without [setTimeout] runs as one piece, so a [bind] or a
    [try] around it splits at its end. *)

Create HintDb timer_free.
#[local] Hint Constructors timer_free : timer_free.

Lemma timer_free_bind {A B : Type} (p : Prog A) (f : A -> Prog B) :
  timer_free p -> (forall a, timer_free (f a)) -> timer_free (bind p f).
Proof. induction 1; cbn; auto with timer_free. Qed.

Lemma timer_free_try_catch {A : Type} (p : Prog A) (h : JsError -> Prog A) :
  timer_free p -> (forall e, timer_free (h e)) -> timer_free (try_catch p h).
Proof. induction 1; cbn; auto with timer_free. Qed.

Lemma timer_free_set f : timer_free (set f).
Proof. unfold set; auto with timer_free. Qed.

Lemma timer_free_console_error l : timer_free (console_error l).
Proof. unfold console_error; auto with timer_free. Qed.

Lemma timer_free_axios {R : Type} (r : Request R) : timer_free (axios r).
Proof. unfold axios; constructor; intros [e | d]; auto with timer_free. Qed.

Lemma timer_free_data_message d : timer_free (data_message d).
Proof. destruct d; cbn; auto with timer_free. Qed.

#[local] Hint Resolve timer_free_bind timer_free_try_catch timer_free_set
  timer_free_console_error timer_free_axios timer_free_data_message
  : timer_free.

Lemma timer_free_fetchProducts : timer_free fetchProducts.
Proof. unfold fetchProducts; auto 10 with timer_free. Qed.

#[local] Hint Resolve timer_free_fetchProducts : timer_free.

Lemma exec_bind {A B : Type} env (p : Prog A) (f : A -> Prog B) w :
  timer_free p ->
  exec env (bind p f) w
  = match exec env p w with
    | (w', inr a) => exec env (f a) w'
    | (w', inl e) => (w', inl e)
    end.
Proof.
  intros T; revert w; induction T; intros w; cbn; auto.
Qed.

Lemma exec_try_catch {A : Type} env (p : Prog A) (h : JsError -> Prog A) w :
  timer_free p ->
  exec env (try_catch p h) w
  = match exec env p w with
    | (w', inr a) => (w', inr a)
    | (w', inl e) => exec env (h e) w'
    end.
Proof.
  intros T; revert w; induction T; intros w; cbn; auto.
Qed.

(** A statement inside a [try]: when it throws the handler takes over,
    otherwise the rest of the block goes on under the same [try]. *)
Lemma exec_try_bind {A B : Type} env (p : Prog A) (f : A -> Prog B) h w :
  timer_free p ->
  exec env (try_catch (bind p f) h) w
  = match exec env p w with
    | (w', inr a) => exec env (try_catch (f a) h) w'
    | (w', inl e) => exec env (h e) w'
    end.
Proof.
  intros T; revert w; induction T; intros w; cbn; auto.
Qed.

Lemma exec_set env f w : exec env (set f) w = (with_state f w, inr tt).
Proof. reflexivity. Qed.

Lemma exec_console_error env l w :
  exec env (console_error l) w = (log (Logged l) w, inr tt).
Proof. reflexivity. Qed.

Lemma exec_axios {R : Type} (env : Env) (r : Request R) (w : World) :
  exec env (axios r) w
  = (settle env w r,
     match outcome env w r with
     | inl e => inl (AxiosErr e)
     | inr response => inr response
     end).
Proof.
  unfold settle, outcome, latency, outcome_at, latency_at. cbn.
  destruct (server env (issued w) R r) as [lat [e | d]]; cbn;
    unfold log, at_time, next_request; cbn; now rewrite <- app_assoc.
Qed.

Lemma exec_setTimeout env cb ms w :
  exec env (setTimeout cb ms) w
  = (match exec env cb (fire env ms w) with
     | (w', inl e) => log (Unhandled e) w'
     | (w', inr _) => w'
     end, inr tt).
Proof.
  unfold setTimeout, fire. cbn. unfold log, at_time. cbn.
  rewrite <- app_assoc. cbn.
  destruct (exec env cb _) as [w' [e | u]]; reflexivity.
Qed.

Lemma exec_try_setTimeout env cb ms h w :
  exec env (try_catch (setTimeout cb ms) h) w = exec env (setTimeout cb ms) w.
Proof. reflexivity. Qed.

Lemma exec_fetchProducts env w : exec env fetchProducts w = fetched env w.
Proof.
  unfold fetchProducts, fetched.
  rewrite exec_try_bind by auto with timer_free.
  rewrite exec_axios.
  destruct (outcome env w ListProducts) as [e | response]; reflexivity.
Qed.

(** The handlers of [App] have the shape [exec] is exact for. *)
Lemma timer_free_timers_last {A : Type} (p : Prog A) :
  timer_free p -> timers_last p.
Proof. induction 1; constructor; auto. Qed.

Lemma handlers_timers_last s i : timers_last (handler s i).
Proof.
  destruct i; cbn [handler];
    try (apply timer_free_timers_last;
         unfold handleSelectProduct, handleDeleteProduct, handleAddOrUpdateProduct,
           fetchQueueMessages, clearQueueMessages, clearRedisCache;
         cbv zeta;
         repeat first
           [ progress auto 10 with timer_free
           | apply timer_free_try_catch; [| intros ?]
           | apply timer_free_bind; [| intros ?]
           | match goal with
             | |- timer_free (if ?b then _ else _) => destruct b
             | |- timer_free (match ?o with Some _ => _ | None => _ end) =>
                 destruct o
             end ];
         fail).
  unfold testRedisCache, secondFetch, fetchProducts, axios, set, setTimeout,
    console_error.
  cbn [bind try_catch].
  repeat first
    [ apply tl_Ret | apply tl_SetState | apply tl_ConsoleError
    | apply tl_Await; intros [? | ?]; cbn [bind try_catch] ].
  all: apply tl_SetTimeout; [| constructor].
  all: repeat first
    [ apply tf_Ret | apply tf_SetState | apply tf_ConsoleError
    | apply tf_Await; intros [? | ?]; cbn [bind try_catch] ].
Qed.

(** ** Tactics that run a handler *)

(** One step of a run: the first statement of the program under [exec]. *)
Ltac run_step :=
  first
    [ rewrite exec_try_setTimeout
    | rewrite exec_setTimeout
    | rewrite exec_fetchProducts
    | rewrite exec_set
    | rewrite exec_console_error
    | rewrite exec_axios
    | rewrite exec_try_bind by auto 10 with timer_free
    | rewrite exec_bind by auto 10 with timer_free
    | rewrite exec_try_catch by auto 10 with timer_free ];
  cbv beta iota.

(** Brings the request numbers and the worlds of the goal to normal form. *)
Ltac norm :=
  unfold outcome, latency, fetched in *;
  cbn [issued clock state trace fst snd
       settle fire log with_state at_time next_request] in *.

(** Takes the outcome of the request the run has reached from the
    hypotheses, or splits on it. *)
Ltac on_outcome :=
  match goal with
  | H : outcome_at ?env ?n ?r = _
    |- context [match outcome_at ?env ?n ?r with _ => _ end] =>
      rewrite H
  | |- context [match outcome_at ?env ?n ?r with _ => _ end] =>
      let e := fresh "e" in
      let d := fresh "d" in
      let E := fresh "Outcome" in
      destruct (outcome_at env n r) as [e | d] eqn:E
  end;
  cbv beta iota.

Ltac run := repeat first [ run_step | progress norm | on_outcome ].

Ltac tidy_trace :=
  repeat rewrite <- app_assoc; cbn [app]; rewrite ?skipn_length_app.

(** Replaces the outcomes the case analysis has fixed. *)
Ltac settle_outcomes :=
  repeat match goal with
         | E : outcome_at _ _ _ = _ |- _ => rewrite ?E in *; clear E
         end;
  cbn [is_resolved].

(** Runs the handler of the goal to its end, case by case. *)
Ltac run_all := run; tidy_trace; settle_outcomes.

(** ** The cache probe *)

(** When the cache-clear request is rejected the probe stops there. *)
Lemma probe_clear_rejected env w e :
  outcome env w ClearCache = inl e ->
  probe_failed (state (after env testRedisCache w))
  /\ events_of env testRedisCache w
     = [Issued (issued w) (wire ClearCache) (clock w);
        Settled (issued w) false (clock w + latency env w ClearCache);
        Logged "Error testing Redis cache:"].
Proof.
  unfold events_of, after, testRedisCache. intros H.
  run_all. split; reflexivity.
Qed.

(** When the cache-clear request resolves the probe goes through both
    fetches and the timer, whatever the fetches answer. *)
Lemma probe_clear_resolved env w :
  outcome env w ClearCache = inr tt ->
  probe_done (state (after env testRedisCache w))
  /\ requests (events_of env testRedisCache w)
     = [wire ClearCache; wire ListProducts; wire ListProducts]
  /\ timers (events_of env testRedisCache w) = [probe_delay].
Proof.
  unfold events_of, after, testRedisCache, secondFetch. intros H.
  run_all; repeat split.
Qed.

(** C5. If the cache-clear request at the start of a probe run fails,
    neither catalog fetch of the run is issued (the clear is the only
    request, and no timer is set), and the probe ends in the failed
    state. *)
Theorem probe_clear_failure_short_circuit env w e :
  outcome env w ClearCache = inl e ->
  probe_failed (state (after env testRedisCache w))
  /\ requests (events_of env testRedisCache w) = [wire ClearCache]
  /\ ~ In (wire ListProducts) (requests (events_of env testRedisCache w))
  /\ timers (events_of env testRedisCache w) = [].
Proof.
  intros H. destruct (probe_clear_rejected env w e H) as [F E].
  rewrite E. cbn. repeat split; auto.
  intros [C | []]. discriminate C.
Qed.

Lemma probe_clear_failure_short_circuit_witness :
  let env := sample_env [0] network_error in
  let w := world_of browsing in
  outcome env w ClearCache = inl network_error
  /\ probe_failed (state (after env testRedisCache w))
  /\ requests (events_of env testRedisCache w) = [wire ClearCache].
Proof.
  intros env w.
  assert (H : outcome env w ClearCache = inl network_error) by reflexivity.
  split; [exact H |].
  destruct (probe_clear_failure_short_circuit env w network_error H)
    as [F [R _]].
  split; [exact F | exact R].
Defined.

(** C1, as the specification states it, fails: here the first catalog
    fetch of the run is rejected, yet the probe does not fail; it issues
    the second fetch as well and reports completion. *)
Lemma probe_survives_fetch_failure :
  let env := sample_env [1] network_error in
  let w := world_of browsing in
  failures (events_of env testRedisCache w) = [1]
  /\ ~ probe_failed (state (after env testRedisCache w))
  /\ probe_done (state (after env testRedisCache w))
  /\ requests (events_of env testRedisCache w)
     = [wire ClearCache; wire ListProducts; wire ListProducts]
  /\ timers (events_of env testRedisCache w) = [probe_delay].
Proof.
  intros env w. unfold probe_failed, probe_done.
  repeat split; try (vm_compute; reflexivity).
  vm_compute. discriminate.
Qed.

(** C1, amended. Only a failure of the cache-clear request makes the
    probe fail: it then sets the generic failure message and abandons
    every remaining step (no fetch, no wait). Once the clear has
    succeeded, a failing catalog fetch is absorbed by [fetchProducts]:
    the probe goes through the first fetch, the wait and the second fetch
    and ends with the completion message, not in the failed state. *)
Theorem probe_fails_only_on_clear env w :
  let w' := after env testRedisCache w in
  let run := events_of env testRedisCache w in
  if is_resolved (outcome env w ClearCache)
  then probe_done (state w') /\ ~ probe_failed (state w')
       /\ requests run = [wire ClearCache; wire ListProducts; wire ListProducts]
       /\ timers run = [probe_delay]
  else probe_failed (state w')
       /\ requests run = [wire ClearCache]
       /\ timers run = [].
Proof.
  intros w' run. subst w' run.
  destruct (outcome env w ClearCache) as [e | []] eqn:H; cbn [is_resolved].
  - destruct (probe_clear_rejected env w e H) as [F E].
    rewrite E. repeat split; auto.
  - destruct (probe_clear_resolved env w H) as [D [R T]].
    repeat split; auto.
    unfold probe_failed, probe_done in *. rewrite D. discriminate.
Qed.

(** C4. In every probe run the cache-clear request settles before the
    first catalog fetch is issued, the first fetch settles (resolved or
    rejected) before the timer of the waiting phase is set, and the second
    fetch is issued only when that timer has fired, at least [probe_delay]
    = 2000 after it was set. When the clear is rejected no fetch is issued
    at all. *)
Theorem probe_ordering env w :
  let n := issued w in
  let t0 := clock w in
  let t1 := (t0 + latency_at env n ClearCache)%N in
  let t2 := (t1 + latency_at env (S n) ListProducts)%N in
  let t3 := (N.max t2 (t2 + probe_delay) + timer_lag env)%N in
  let t4 := (t3 + latency_at env (S (S n)) ListProducts)%N in
  schedule (events_of env testRedisCache w)
  = (if is_resolved (outcome_at env n ClearCache)
     then [Issued n (wire ClearCache) t0;
           Settled n true t1;
           Issued (S n) (wire ListProducts) t1;
           Settled (S n) (is_resolved (outcome_at env (S n) ListProducts)) t2;
           TimerSet probe_delay t2;
           TimerFired t3;
           Issued (S (S n)) (wire ListProducts) t3;
           Settled (S (S n))
             (is_resolved (outcome_at env (S (S n)) ListProducts)) t4]
     else [Issued n (wire ClearCache) t0; Settled n false t1])
  /\ (t0 <= t1 <= t2)%N
  /\ (t2 + probe_delay <= t3 <= t4)%N
  /\ probe_delay = 2000%N.
Proof.
  cbv zeta. split; [| unfold probe_delay; lia].
  unfold events_of, after, testRedisCache, secondFetch.
  run_all; reflexivity.
Qed.

(** C10. A rejected catalog request makes [fetchProducts] return [null],
    which is none of the declared statuses hit, miss, unknown; the probe
    prints it into its status lines: "First Fetch: Cache null" when the
    first fetch of a run fails, "Second Fetch: Cache null" when the second
    does. *)
Theorem failed_fetch_reports_null env w e
    (Hclear : outcome env w ClearCache = inr tt) :
  let results := cacheTestResults (state (after env testRedisCache w)) in
  (forall w0, outcome env w0 ListProducts = inl e ->
              snd (exec env fetchProducts w0) = inr JNull)
  /\ ~ In JNull declared_cacheStatus
  /\ (outcome_at env (S (issued w)) ListProducts = inl e ->
      firstFetchStatus results = "First Fetch: Cache null")
  /\ (outcome_at env (S (S (issued w))) ListProducts = inl e ->
      secondFetchStatus results = "Second Fetch: Cache null").
Proof.
  cbv zeta. repeat split.
  - intros w0 H. rewrite exec_fetchProducts. unfold fetched. now rewrite H.
  - cbn. intros [H | [H | [H | []]]]; discriminate H.
  - intros H. unfold after, testRedisCache, secondFetch. run_all; reflexivity.
  - intros H. unfold after, testRedisCache, secondFetch. run_all; reflexivity.
Qed.

Lemma failed_fetch_reports_null_witness :
  let env := sample_env [1; 2] network_error in
  let w := world_of browsing in
  let results := cacheTestResults (state (after env testRedisCache w)) in
  outcome env w ClearCache = inr tt
  /\ outcome_at env 1 ListProducts = inl network_error
  /\ outcome_at env 2 ListProducts = inl network_error
  /\ snd (exec env fetchProducts (after env (axios ClearCache) w)) = inr JNull
  /\ firstFetchStatus results = "First Fetch: Cache null"
  /\ secondFetchStatus results = "Second Fetch: Cache null".
Proof.
  intros env w results.
  assert (H : outcome env w ClearCache = inr tt) by reflexivity.
  assert (H1 : outcome_at env 1 ListProducts = inl network_error) by reflexivity.
  assert (H2 : outcome_at env 2 ListProducts = inl network_error) by reflexivity.
  destruct (failed_fetch_reports_null env w network_error H) as [F [_ [A B]]].
  split; [exact H |]. split; [exact H1 |]. split; [exact H2 |].
  split; [apply F; reflexivity |].
  split; [exact (A H1) | exact (B H2)].
Defined.

(** ** The editor: create, update, delete *)

Lemma exec_Ret {A : Type} env (a : A) w : exec env (Ret a) w = (w, inr a).
Proof. reflexivity. Qed.

Lemma exec_Throw {A : Type} env e w : exec env (@Throw A e) w = (w, inl e).
Proof. reflexivity. Qed.

(** Runs the [catch] of a write on the error at hand. *)
Ltac run_catch :=
  cbn [error_response error_message];
  match goal with
  | |- context [axios_response ?e] =>
      destruct (axios_response e) as [[| ?] |] eqn:?
  end;
  cbn [data_message];
  repeat first [ run_step | rewrite exec_Ret | rewrite exec_Throw | progress norm ].


Lemma submission_axios (s : State) :
  (if truthy (selectedProductId s)
   then axios (UpdateProduct (selectedProductId s)
                 {| body_name := productName s;
                    body_price := parseFloat (productPrice s) |})
   else axios (CreateProduct
                 {| body_name := productName s;
                    body_price := parseFloat (productPrice s) |}))
  = axios (submission s).
Proof. unfold submission. destruct (truthy (selectedProductId s)); reflexivity. Qed.

(** A rejected write changes nothing but the message. *)
Lemma rejected_mutation_state env w e m :
  mutation_rejected env w e m ->
  state (after env (mutation_handler m) w) = surfaced (fallback m) e (state w).
Proof.
  destruct m as [s | id]; cbn [mutation_rejected mutation_handler fallback];
    intros H; unfold after, surfaced.
  - unfold handleAddOrUpdateProduct. cbv zeta. rewrite submission_axios.
    run. run_catch; reflexivity.
  - unfold handleDeleteProduct.
    run. run_catch; reflexivity.
Qed.

(** A rejected write sends its one request and nothing else. *)
Lemma rejected_mutation_requests env w e m :
  mutation_rejected env w e m ->
  length (requests (events_of env (mutation_handler m) w)) = 1.
Proof.
  destruct m as [s | id]; cbn [mutation_rejected mutation_handler];
    intros H; unfold events_of, after.
  - unfold handleAddOrUpdateProduct. cbv zeta. rewrite submission_axios.
    run. run_catch; tidy_trace; reflexivity.
  - unfold handleDeleteProduct.
    run. run_catch; tidy_trace; reflexivity.
Qed.

(** C3. Every successful create or update submission leaves the editor
    in create mode (no selected product id) with empty name and price
    fields, whether it started in create mode or in edit mode, and
    whatever the refresh that follows answers. *)
Theorem submit_success_resets_editor env s w p :
  outcome env w (submission s) = inr p ->
  let s' := state (after env (handleAddOrUpdateProduct s) w) in
  create_mode s'
  /\ selectedProductId s' = JNull
  /\ productName s' = JStr ""
  /\ productPrice s' = JStr "".
Proof.
  intros H. cbv zeta. unfold after, handleAddOrUpdateProduct, create_mode.
  cbv zeta. rewrite submission_axios.
  run_all; repeat split.
Qed.

Lemma submit_success_resets_editor_witness :
  let env := sample_env [] network_error in
  (edit_mode editing
   /\ selectedProductId
        (state (after env (handleAddOrUpdateProduct editing) (world_of editing)))
      = JNull)
  /\ (create_mode browsing
      /\ productName
           (state (after env (handleAddOrUpdateProduct browsing) (world_of browsing)))
         = JStr "").
Proof.
  intros env. split; (split; [reflexivity |]).
  - refine (proj1 (proj2 (submit_success_resets_editor env editing
                            (world_of editing) _ _))).
    reflexivity.
  - refine (proj1 (proj2 (proj2 (submit_success_resets_editor env browsing
                                   (world_of browsing) _ _)))).
    reflexivity.
Defined.

Lemma surfaced_same_but_message fb e s : same_but_message (surfaced fb e s) s.
Proof.
  unfold surfaced, same_but_message.
  destruct (axios_response e) as [[| m] |]; cbn; repeat split.
Qed.

(** C8. When a create or update submission fails, the name field, the
    price field and the selection are what they were before it; of the
    whole state only the status message can have changed, and no request
    besides the failed one is sent. *)
Theorem submit_failure_keeps_editor env s w e :
  outcome env w (submission s) = inl e ->
  let s' := state (after env (handleAddOrUpdateProduct s) w) in
  productName s' = productName (state w)
  /\ productPrice s' = productPrice (state w)
  /\ selectedProductId s' = selectedProductId (state w)
  /\ same_but_message s' (state w)
  /\ length (requests (events_of env (handleAddOrUpdateProduct s) w)) = 1.
Proof.
  intros H. cbv zeta.
  pose proof (rejected_mutation_state env w e (Submit s) H) as E.
  pose proof (rejected_mutation_requests env w e (Submit s) H) as R.
  cbn [mutation_handler fallback] in E, R. rewrite E.
  pose proof (surfaced_same_but_message "Failed to perform operation" e (state w))
    as S.
  unfold same_but_message in *. intuition.
Qed.

Lemma submit_failure_keeps_editor_witness :
  let env := sample_env [0] not_found in
  let s' := state (after env (handleAddOrUpdateProduct editing) (world_of editing)) in
  outcome env (world_of editing) (submission editing) = inl not_found
  /\ productName s' = JStr "Widget"
  /\ productPrice s' = JNum "9.99"
  /\ selectedProductId s' = JNum "1".
Proof.
  intros env s'.
  assert (H : outcome env (world_of editing) (submission editing) = inl not_found)
    by reflexivity.
  destruct (submit_failure_keeps_editor env editing (world_of editing) not_found H)
    as [N [P [I _]]].
  split; [exact H |]. split; [exact N |]. split; [exact P | exact I].
Defined.

(** C9. [handleDeleteProduct] never touches the editor: whatever the
    delete request and the refresh answer, and also when the deleted id
    is the selected one, the selected product id, the name field and the
    price field are what they were, so an editor in edit mode stays in
    edit mode on that id. *)
Theorem delete_keeps_editor env id w :
  let s' := state (after env (handleDeleteProduct id) w) in
  selectedProductId s' = selectedProductId (state w)
  /\ productName s' = productName (state w)
  /\ productPrice s' = productPrice (state w)
  /\ (edit_mode (state w) -> edit_mode s').
Proof.
  cbv zeta. unfold after, handleDeleteProduct, edit_mode.
  run_all; try run_catch; repeat split; auto.
Qed.

Lemma delete_keeps_editor_witness :
  let s' := state (after env_empty_catalog (handleDeleteProduct (JNum "1"))
                     (world_of editing)) in
  edit_mode editing
  /\ edit_mode s'
  /\ selectedProductId s' = JNum "1"
  /\ products s' = [].
Proof.
  intros s'.
  destruct (delete_keeps_editor env_empty_catalog (JNum "1") (world_of editing))
    as [I [_ [_ M]]].
  assert (E : edit_mode editing) by reflexivity.
  split; [exact E |]. split; [exact (M E) |]. split; [exact I | reflexivity].
Defined.

(** The delete scenario, run: the catalog comes back empty and the editor
    still edits product 1. *)
Example delete_selected_product :
  let s' := state (after env_empty_catalog (handleDeleteProduct (JNum "1"))
                     (world_of editing)) in
  products s' = []
  /\ selectedProductId s' = JNum "1"
  /\ responseMessage s' = JStr "Product deleted successfully"
  /\ render s' = PageView
       {| page_rows := []; page_heading := "Update Product";
          page_name := JStr "Widget"; page_price := JNum "9.99";
          page_submit := "Update Product";
          page_message := JStr "Product deleted successfully";
          page_queue := [];
          page_cache := {| firstFetchStatus := ""; secondFetchStatus := "";
                           overallMessage := "" |} |}.
Proof. repeat split. Qed.

(** C6, as the specification states it, fails: the server answers a
    create, and a delete, with an error response whose body has no
    [message] property; the message state becomes [undefined] (the page
    shows nothing), not the generic fallback. *)
Lemma missing_message_gets_no_fallback :
  let env := sample_env [0] bare_500 in
  let w := world_of browsing in
  axios_response bare_500 = Some (DataWith JUndefined)
  /\ mutation_rejected env w bare_500 (Submit browsing)
  /\ responseMessage (state (after env (handleAddOrUpdateProduct browsing) w))
     = JUndefined
  /\ responseMessage (state (after env (handleAddOrUpdateProduct browsing) w))
     <> JStr "Failed to perform operation"
  /\ mutation_rejected env w bare_500 (Delete (JNum "1"))
  /\ responseMessage (state (after env (handleDeleteProduct (JNum "1")) w))
     = JUndefined
  /\ responseMessage (state (after env (handleDeleteProduct (JNum "1")) w))
     <> JStr "Failed to delete product".
Proof.
  intros env w. repeat split; try (vm_compute; reflexivity);
    vm_compute; discriminate.
Qed.

(** C6, amended. For a failed create, update or delete the message shown
    is the [message] property of the body of the error response,
    verbatim, whenever the failure carries a response with a body
    (nothing is shown when that body has no such property), and the
    generic fallback only when the failure carries no response at all.
    In both cases the page that was on screen stays on screen and shows
    that message. *)
Theorem failure_message_surfaced env w e m :
  mutation_rejected env w e m ->
  let s' := state (after env (mutation_handler m) w) in
  (forall msg, axios_response e = Some (DataWith msg) ->
     s' = setResponseMessage msg (state w)
     /\ (page_shown (state w) ->
         exists pg, render s' = PageView pg /\ page_message pg = msg))
  /\ (axios_response e = None ->
      s' = setResponseMessage (JStr (fallback m)) (state w)
      /\ (page_shown (state w) ->
          exists pg, render s' = PageView pg
                     /\ page_message pg = JStr (fallback m))).
Proof.
  intros H. cbv zeta. rewrite (rejected_mutation_state env w e m H).
  unfold surfaced, page_shown, render. split.
  - intros msg R. rewrite R. split; [reflexivity |].
    intros [L E]. cbn [setResponseMessage loading error]. rewrite L, E.
    eexists. split; reflexivity.
  - intros R. rewrite R. split; [reflexivity |].
    intros [L E]. cbn [setResponseMessage loading error]. rewrite L, E.
    eexists. split; reflexivity.
Qed.

Lemma failure_message_surfaced_witness :
  let w := world_of browsing in
  (mutation_rejected (sample_env [0] not_found) w not_found (Delete (JNum "7"))
   /\ responseMessage
        (state (after (sample_env [0] not_found) (handleDeleteProduct (JNum "7")) w))
      = JStr "Product not found")
  /\ (mutation_rejected (sample_env [0] network_error) w network_error
        (Submit browsing)
      /\ page_shown (state w)
      /\ exists pg,
          render (state (after (sample_env [0] network_error)
                           (handleAddOrUpdateProduct browsing) w))
          = PageView pg
          /\ page_message pg = JStr "Failed to perform operation").
Proof.
  intros w. split.
  - assert (H : mutation_rejected (sample_env [0] not_found) w not_found
                  (Delete (JNum "7"))) by reflexivity.
    split; [exact H |].
    destruct (failure_message_surfaced _ w not_found (Delete (JNum "7")) H)
      as [M _].
    cbn [mutation_handler] in M.
    rewrite (proj1 (M (JStr "Product not found") eq_refl)). reflexivity.
  - assert (H : mutation_rejected (sample_env [0] network_error) w network_error
                  (Submit browsing)) by reflexivity.
    assert (P : page_shown (state w)) by (split; reflexivity).
    split; [exact H |]. split; [exact P |].
    destruct (failure_message_surfaced _ w network_error (Submit browsing) H)
      as [_ F].
    cbn [mutation_handler] in F.
    exact (proj2 (F eq_refl) P).
Defined.

(** ** The queue viewer *)

Lemma skipn_length_self {A : Type} (l : list A) : skipn (length l) l = [].
Proof. induction l as [| x l IH]; [reflexivity | exact IH]. Qed.

(** C7. [clearQueueMessages] issues no network call: it adds no event to
    the run and leaves the request counter and the clock alone; it only
    empties the held batch and sets the confirmation message; and a
    queue fetch made after it sends the same request, gets the same
    answer and stores the same batch as one made without it. *)
Theorem queue_clear_is_local env w :
  let w' := after env clearQueueMessages w in
  events_of env clearQueueMessages w = []
  /\ issued w' = issued w
  /\ clock w' = clock w
  /\ state w'
     = setResponseMessage (JStr "Queue messages cleared")
         (setQueueMessages [] (state w))
  /\ outcome env w' FetchQueue = outcome env w FetchQueue
  /\ events_of env fetchQueueMessages w' = events_of env fetchQueueMessages w
  /\ queueMessages (state (after env fetchQueueMessages w'))
     = queueMessages (state (after env fetchQueueMessages w)).
Proof.
  cbv zeta. unfold events_of, after, clearQueueMessages, fetchQueueMessages.
  run_all; rewrite ?skipn_length_self; repeat split.
Qed.

Example queue_clear_then_fetch :
  let env := sample_env [] network_error in
  let w := world_of browsing in
  queueMessages (state (after env clearQueueMessages
                          (after env fetchQueueMessages w))) = []
  /\ queueMessages (state (after env fetchQueueMessages
                             (after env clearQueueMessages w)))
     = ["created 1"; "created 2"].
Proof. split; reflexivity. Qed.

(** ** Failures and the rendered view *)

Create HintDb keeps.
#[local] Hint Constructors keeps : keeps.

Lemma keeps_bind P {A B : Type} (p : Prog A) (f : A -> Prog B) :
  keeps P p -> (forall a, keeps P (f a)) -> keeps P (bind p f).
Proof. induction 1; cbn; auto with keeps. Qed.

Lemma keeps_try_catch P {A : Type} (p : Prog A) (h : JsError -> Prog A) :
  keeps P p -> (forall e, keeps P (h e)) -> keeps P (try_catch p h).
Proof. induction 1; cbn; auto with keeps. Qed.

Lemma keeps_axios P {R : Type} (r : Request R) : keeps P (axios r).
Proof. unfold axios. constructor. intros [e | d]; auto with keeps. Qed.

Lemma keeps_data_message P d : keeps P (data_message d).
Proof. destruct d; cbn; auto with keeps. Qed.

Lemma keeps_console_error P l : keeps P (console_error l).
Proof. unfold console_error; auto with keeps. Qed.

Lemma keeps_set (P : State -> Prop) f :
  (forall s, P s -> P (f s)) -> keeps P (set f).
Proof. unfold set; auto with keeps. Qed.

#[local] Hint Resolve keeps_bind keeps_try_catch keeps_axios keeps_data_message
  keeps_console_error keeps_set : keeps.

(** What a program keeps holds at the end of its run. *)
Lemma exec_keeps P {A : Type} env (p : Prog A) w :
  keeps P p -> P (state w) -> P (state (fst (exec env p w))).
Proof.
  intros K. revert w.
  induction K; intros w Hw; cbn [exec]; cbv zeta; auto.
  - apply IHK. cbn. auto.
  - specialize (IHK2 (log (TimerSet ms (clock w)) w) Hw).
    destruct (exec env k (log (TimerSet ms (clock w)) w)) as [w2 r].
    cbn [fst] in IHK2.
    match goal with
    | |- context [exec env cb ?w3] =>
        specialize (IHK1 w3 IHK2); destruct (exec env cb w3) as [w4 [e | u]]
    end; exact IHK1.
Qed.

Lemma error_shown_render s :
  error_shown s -> render s = ErrorView (error s) /\ controls (render s) = [].
Proof.
  intros [L E]. unfold render. rewrite L, E. split; reflexivity.
Qed.

(** No setter of the component clears [error] or raises [loading]. *)
Ltac keeps_error :=
  repeat first
    [ apply keeps_bind; [| intros ?]
    | apply keeps_try_catch; [| intros ?]
    | apply keeps_axios
    | apply keeps_data_message
    | apply keeps_console_error
    | apply keeps_set; intros ? [? ?]; split; cbn;
      solve [ assumption | reflexivity ]
    | apply keeps_Ret
    | apply keeps_SetTimeout
    | match goal with
      | |- keeps _ (if ?b then _ else _) => destruct b
      | |- keeps _ (match ?o with Some _ => _ | None => _ end) => destruct o
      end ].

Lemma fetchProducts_keeps_error : keeps error_shown fetchProducts.
Proof. unfold fetchProducts. keeps_error. Qed.

Lemma handlers_keep_error s i : keeps error_shown (handler s i).
Proof.
  pose proof fetchProducts_keeps_error as F.
  destruct i; cbn [handler].
  - unfold handleSelectProduct. keeps_error.
  - unfold handleDeleteProduct. keeps_error; exact F.
  - keeps_error.
  - keeps_error.
  - unfold handleAddOrUpdateProduct. cbv zeta. keeps_error; exact F.
  - unfold fetchQueueMessages. keeps_error.
  - unfold clearQueueMessages. keeps_error.
  - unfold testRedisCache, secondFetch, setTimeout. keeps_error; exact F.
  - unfold clearRedisCache. keeps_error.
Qed.

Lemma page_shown_render s :
  page_shown s ->
  exists pg, render s = PageView pg
             /\ page_message pg = responseMessage s
             /\ page_cache pg = cacheTestResults s
             /\ In SubmitButton (controls (render s)).
Proof.
  intros [L E]. unfold render. rewrite L, E. eexists. split; [reflexivity |].
  cbn. repeat split. apply in_or_app. right. cbn. auto.
Qed.

(** A rejected operation leaves the flags and the list that decide what
    is rendered. *)
Lemma rejected_operation_frame env w e op :
  operation_rejected env w e op ->
  let s' := state (after env (operation_handler op) w) in
  loading s' = loading (state w)
  /\ error s' = error (state w)
  /\ products s' = products (state w).
Proof.
  destruct op as [m | | |]; cbn [operation_rejected operation_handler];
    intros H; cbv zeta.
  - rewrite (rejected_mutation_state env w e m H).
    pose proof (surfaced_same_but_message (fallback m) e (state w)) as S.
    unfold same_but_message in S. intuition.
  - unfold after, fetchQueueMessages. run_all. repeat split.
  - unfold after, clearRedisCache. run_all. repeat split.
  - unfold after, testRedisCache. run_all. repeat split.
Qed.

(** A rejected catalog fetch inside an operation leaves the error on
    screen at the end of the operation. *)
Lemma rejected_refresh_shows_error env w e op :
  refresh_rejected env w e op ->
  error_shown (state (after env (operation_handler op) w)).
Proof.
  destruct op as [[s | id] | | |];
    cbn [refresh_rejected operation_handler mutation_handler]; cbv zeta;
    try contradiction; intros [R F]; unfold after.
  - destruct (outcome env w (submission s)) as [e0 | p] eqn:O;
      [discriminate R |].
    unfold handleAddOrUpdateProduct. cbv zeta. rewrite submission_axios.
    run_all. split; reflexivity.
  - destruct (outcome env w (DeleteProduct id)) as [e0 | p] eqn:O;
      [discriminate R |].
    unfold handleDeleteProduct. run_all. split; reflexivity.
  - destruct (outcome env w ClearCache) as [e0 | p] eqn:O;
      [discriminate R |].
    unfold testRedisCache, secondFetch.
    destruct F as [F | F]; run_all; split; reflexivity.
Qed.

(** C2, as the specification states it, fails: a rejected catalog fetch
    replaces the page by the bare error text, which carries no control.
    Here the page is on screen and a delete succeeds, but the refresh
    that follows is rejected: the view is the error text, without any
    control and without the status message of the delete. *)
Lemma fetch_failure_removes_controls :
  let env := sample_env [1] network_error in
  let w := world_of browsing in
  let s' := state (after env (handleDeleteProduct (JNum "1")) w) in
  In SubmitButton (controls (render (state w)))
  /\ failures (events_of env (handleDeleteProduct (JNum "1")) w) = [1]
  /\ responseMessage s' = JStr "Product deleted successfully"
  /\ render s'
     = ErrorView
         (JStr "Error fetching products: Network Error. Please try again later.")
  /\ controls (render s') = [].
Proof.
  intros env w s'. repeat split; try (vm_compute; reflexivity).
  vm_compute. auto 10.
Qed.

(** C2, amended. A failed create, update, delete, queue fetch, cache
    clear or probe cache-clear is not fatal: the page that was on screen
    stays on screen with its controls and shows the current status
    messages. A failed catalog fetch (on its own, as the refresh after a
    write, or as a step of the probe) is not fatal either, but it sets
    [error]: the component then renders the error text alone, with no
    control, and keeps doing so whatever handler runs afterwards. *)
Theorem failure_keeps_page_unless_fetch env w e :
  (forall op, operation_rejected env w e op -> page_shown (state w) ->
     let s' := state (after env (operation_handler op) w) in
     page_shown s'
     /\ controls (render s') = controls (render (state w))
     /\ exists pg, render s' = PageView pg
                   /\ page_message pg = responseMessage s'
                   /\ page_cache pg = cacheTestResults s'
                   /\ In SubmitButton (controls (render s')))
  /\ (outcome env w ListProducts = inl e ->
      let s' := state (after env fetchProducts w) in
      error_shown s'
      /\ render s'
         = ErrorView (JStr ("Error fetching products: " ++ axios_message e
                            ++ ". Please try again later."))
      /\ controls (render s') = [])
  /\ (forall op, refresh_rejected env w e op ->
        let s' := state (after env (operation_handler op) w) in
        error_shown s' /\ controls (render s') = [])
  /\ (forall env' s i w',
        error_shown (state w') ->
        let s' := state (after env' (handler s i) w') in
        error_shown s' /\ controls (render s') = []).
Proof.
  split; [| split; [| split]].
  - intros op H [L0 E0]. cbv zeta.
    destruct (rejected_operation_frame env w e op H) as [L [E P]].
    assert (S : page_shown (state (after env (operation_handler op) w)))
      by (split; congruence).
    split; [exact S |]. split; [| apply page_shown_render; exact S].
    unfold render. rewrite L, E, P, L0, E0. reflexivity.
  - intros H. cbv zeta.
    assert (S : state (after env fetchProducts w)
                = setLoading false
                    (setError (JStr ("Error fetching products: "
                                     ++ axios_message e
                                     ++ ". Please try again later."))
                       (state w))).
    { unfold after. rewrite exec_fetchProducts. unfold fetched.
      now rewrite H. }
    rewrite S. repeat split.
  - intros op H. cbv zeta.
    pose proof (rejected_refresh_shows_error env w e op H) as S.
    split; [exact S | apply error_shown_render; exact S].
  - intros env' s i w' S. cbv zeta.
    assert (S' : error_shown (state (after env' (handler s i) w')))
      by exact (exec_keeps error_shown env' (handler s i) w'
                  (handlers_keep_error s i) S).
    split; [exact S' | apply error_shown_render; exact S'].
Qed.

Lemma failure_keeps_page_unless_fetch_witness :
  let env := sample_env [0] network_error in
  let env1 := sample_env [1] network_error in
  let w := world_of browsing in
  (operation_rejected env w network_error CacheClear
   /\ page_shown (state w)
   /\ page_shown (state (after env clearRedisCache w)))
  /\ (outcome env w ListProducts = inl network_error
      /\ controls (render (state (after env fetchProducts w))) = [])
  /\ (refresh_rejected env1 w network_error (Mutate (Delete (JNum "1")))
      /\ controls (render (state (after env1 (handleDeleteProduct (JNum "1")) w)))
         = [])
  /\ controls (render (state (after env fetchQueueMessages
                                (after env fetchProducts w)))) = [].
Proof.
  intros env env1 w.
  destruct (failure_keeps_page_unless_fetch env w network_error) as [A [B [_ C]]].
  destruct (failure_keeps_page_unless_fetch env1 w network_error) as [_ [_ [D _]]].
  assert (R : operation_rejected env w network_error CacheClear) by reflexivity.
  assert (S : page_shown (state w)) by (split; reflexivity).
  assert (F : outcome env w ListProducts = inl network_error) by reflexivity.
  assert (G : refresh_rejected env1 w network_error (Mutate (Delete (JNum "1"))))
    by (split; reflexivity).
  split; [| split; [| split]].
  - split; [exact R |]. split; [exact S |].
    exact (proj1 (A CacheClear R S)).
  - split; [exact F |]. exact (proj2 (proj2 (B F))).
  - split; [exact G |]. exact (proj2 (D (Mutate (Delete (JNum "1"))) G)).
  - exact (proj2 (C env (state w) ClickFetchMessages
                    (after env fetchProducts w) (proj1 (B F)))).
Defined.

(** The component mounts while the server is unreachable: the first and
    only view after loading is the error text. *)
Example mount_failure :
  render (state (mount (sample_env [0] network_error)))
  = ErrorView
      (JStr "Error fetching products: Network Error. Please try again later.").
Proof. reflexivity. Qed.

(** * Further properties of the handlers

    ** The catalog fetch *)

(** X1. A resolved catalog fetch replaces the stored list by the list of
    the response, whatever list was stored, turns [loading] off, changes
    nothing else (an [error] set by an earlier failure stays set), and
    returns the [cacheStatus] of the response as it came. *)
Theorem fetch_success_replaces_catalog env w c :
  outcome env w ListProducts = inr c ->
  let s' := state (after env fetchProducts w) in
  s' = setLoading false (setProducts (data_products c) (state w))
  /\ products s' = data_products c
  /\ error s' = error (state w)
  /\ snd (exec env fetchProducts w) = inr (data_cacheStatus c).
Proof.
  intros H. cbv zeta. unfold after. rewrite exec_fetchProducts.
  unfold fetched. rewrite H. repeat split.
Qed.

Lemma fetch_success_replaces_catalog_witness :
  let env := env_empty_catalog in
  let w := world_of (setError (JStr "Error fetching products: x") browsing) in
  products (state w) = [widget]
  /\ products (state (after env fetchProducts w)) = []
  /\ error (state (after env fetchProducts w)) = JStr "Error fetching products: x"
  /\ snd (exec env fetchProducts w) = inr (JStr "miss").
Proof.
  intros env w.
  destruct (fetch_success_replaces_catalog env w
              {| data_products := []; data_cacheStatus := JStr "miss" |} eq_refl)
    as [_ [P [E R]]].
  split; [reflexivity |]. split; [exact P |]. split; [exact E | exact R].
Defined.

(** X2. Whatever the server answers, [fetchProducts] returns normally
    (it never throws), sends exactly one request, the GET of
    [/api/products], leaves [loading] off, and touches neither the editor,
    nor the response message, nor the queue, nor the probe results. *)
Theorem fetchProducts_settles env w :
  let s' := state (after env fetchProducts w) in
  (exists v, snd (exec env fetchProducts w) = inr v)
  /\ requests (events_of env fetchProducts w)
     = [{| wire_method := GET; wire_path := "/api/products"; wire_body := None |}]
  /\ loading s' = false
  /\ same_but_catalog s' (state w).
Proof.
  cbv zeta. unfold events_of, after, same_but_catalog.
  rewrite exec_fetchProducts. unfold fetched.
  destruct (outcome env w ListProducts) as [e | c]; norm; tidy_trace;
    repeat split; eexists; reflexivity.
Qed.

(** ** The queue viewer *)

(** The state a queue fetch leaves. *)
Lemma fetchQueueMessages_state env w :
  state (after env fetchQueueMessages w)
  = setQueueMessages
      (match outcome env w FetchQueue with
       | inr messages => messages
       | inl _ => []
       end)
      (state w).
Proof.
  unfold after, fetchQueueMessages. repeat run_step.
  destruct (outcome env w FetchQueue) as [e | d]; repeat run_step; reflexivity.
Qed.

(** X3. [fetchQueueMessages] sends exactly one request, the GET of
    [/api/queue/product_queue], and never throws. It replaces the held
    batch by the messages of the response (the earlier batch is dropped,
    not appended to), or by the empty batch when the request is rejected;
    nothing else of the state changes. *)
Theorem queue_fetch_replaces_batch env w :
  snd (exec env fetchQueueMessages w) = inr tt
  /\ requests (events_of env fetchQueueMessages w)
     = [{| wire_method := GET; wire_path := "/api/queue/product_queue";
           wire_body := None |}]
  /\ state (after env fetchQueueMessages w)
     = setQueueMessages
         (match outcome env w FetchQueue with
          | inr messages => messages
          | inl _ => []
          end)
         (state w).
Proof.
  unfold events_of, after, fetchQueueMessages.
  repeat run_step.
  destruct (outcome env w FetchQueue) as [e | d] eqn:O; repeat run_step;
    norm; tidy_trace; repeat split.
Qed.

(** X4. A rejected queue fetch is silent: it leaves no message and no
    error, and the page is the very page a resolved fetch of an empty
    queue gives, with the one item "No messages in queue". *)
Theorem queue_failure_looks_empty env env0 w e :
  outcome env w FetchQueue = inl e ->
  outcome env0 w FetchQueue = inr [] ->
  let s' := state (after env fetchQueueMessages w) in
  s' = state (after env0 fetchQueueMessages w)
  /\ render s' = render (state (after env0 fetchQueueMessages w))
  /\ queue_lines s' = ["No messages in queue"]
  /\ responseMessage s' = responseMessage (state w)
  /\ error s' = error (state w).
Proof.
  intros H H0. cbv zeta.
  rewrite (fetchQueueMessages_state env w), (fetchQueueMessages_state env0 w).
  rewrite H, H0. repeat split.
Qed.

Lemma queue_failure_looks_empty_witness :
  let env := sample_env [0] network_error in
  let env0 :=
    {| server := fun n R r =>
         (30%N,
          inr (match r in Request R return R with
               | FetchQueue => []
               | r' => sample_data (JStr "miss") r'
               end));
       timer_lag := 0 |} in
  let w := world_of (setQueueMessages ["created 1"] browsing) in
  state (after env fetchQueueMessages w) = state (after env0 fetchQueueMessages w)
  /\ queue_lines (state (after env fetchQueueMessages w)) = ["No messages in queue"].
Proof.
  intros env env0 w.
  destruct (queue_failure_looks_empty env env0 w network_error eq_refl eq_refl)
    as [S [_ [Q _]]].
  split; [exact S | exact Q].
Defined.

(** ** The standalone cache clear *)

(** X5. [clearRedisCache] sends exactly one request, the GET of
    [/api/cache/clear], and never throws. It sets the overall message to
    "Redis cache cleared successfully" or to "Failed to clear Redis
    cache", and keeps the two fetch status lines of the last probe and
    the rest of the state as they were. *)
Theorem clear_cache_reports env w :
  let s' := state (after env clearRedisCache w) in
  snd (exec env clearRedisCache w) = inr tt
  /\ requests (events_of env clearRedisCache w)
     = [{| wire_method := GET; wire_path := "/api/cache/clear"; wire_body := None |}]
  /\ s' = setCacheTestResults
            (with_overallMessage
               (if is_resolved (outcome env w ClearCache)
                then "Redis cache cleared successfully"
                else "Failed to clear Redis cache"))
            (state w)
  /\ firstFetchStatus (cacheTestResults s')
     = firstFetchStatus (cacheTestResults (state w))
  /\ secondFetchStatus (cacheTestResults s')
     = secondFetchStatus (cacheTestResults (state w)).
Proof.
  cbv zeta. unfold events_of, after, clearRedisCache.
  run_all; repeat split.
Qed.

(** ** The editor *)

(** [parseFloat] on the texts a price field can hold. *)
Example parseFloat_samples :
  map parseFloat
    [JStr ""; JStr "4.50"; JStr "  12abc"; JStr ".5"; JStr "-.5e3"; JStr "1e";
     JStr "5."; JStr "abc"; JStr "+"; JStr "-Infinity";
     JNum "9.99"; JNum "NaN"; JNum "1e+21"; JNull; JUndefined]
  = [NaN; NumberOf "4.50"; NumberOf "12"; NumberOf ".5"; NumberOf "-.5e3";
     NumberOf "1"; NumberOf "5."; NaN; NaN; NumberOf "-Infinity";
     NumberOf "9.99"; NaN; NumberOf "1e+21"; NaN; NaN].
Proof. reflexivity. Qed.


(** Runs a handler to its end, through its last [return] as well. *)
Ltac run_out :=
  repeat first
    [ run_step | rewrite exec_Ret | rewrite exec_Throw | progress norm
    | on_outcome ].

Ltac finish := tidy_trace; settle_outcomes.

(** The requests of a submission, by the outcome of the write. *)
Lemma submit_requests env s w :
  requests (events_of env (handleAddOrUpdateProduct s) w)
  = wire (submission s)
    :: (if is_resolved (outcome env w (submission s))
        then [wire ListProducts] else []).
Proof.
  unfold events_of, after, handleAddOrUpdateProduct. cbv zeta.
  rewrite submission_axios. run_out.
  - run_catch; finish; reflexivity.
  - finish; reflexivity.
  - finish; reflexivity.
Qed.

(** The requests of a delete, by the outcome of the write. *)
Lemma delete_requests env id w :
  requests (events_of env (handleDeleteProduct id) w)
  = wire (DeleteProduct id)
    :: (if is_resolved (outcome env w (DeleteProduct id))
        then [wire ListProducts] else []).
Proof.
  unfold events_of, after, handleDeleteProduct. run_out.
  - run_catch; finish; reflexivity.
  - finish; reflexivity.
  - finish; reflexivity.
Qed.

(** X6. A submission always sends its request, whatever the fields hold
    (nothing is validated): the body carries the name field as it stands
    and [parseFloat] of the price field. It is a PUT to
    [/api/products/<id>] when a truthy id is selected, a POST to
    [/api/products] otherwise. The catalog is fetched again after it
    exactly when that request resolves. *)
Theorem submit_sends_fields_unchecked env s w :
  let body := {| body_name := productName s;
                 body_price := parseFloat (productPrice s) |} in
  wire (submission s)
  = (if truthy (selectedProductId s)
     then {| wire_method := PUT;
             wire_path := "/api/products/" ++ to_string (selectedProductId s);
             wire_body := Some body |}
     else {| wire_method := POST; wire_path := "/api/products";
             wire_body := Some body |})
  /\ requests (events_of env (handleAddOrUpdateProduct s) w)
     = wire (submission s)
       :: (if is_resolved (outcome env w (submission s))
           then [{| wire_method := GET; wire_path := "/api/products";
                    wire_body := None |}]
           else []).
Proof.
  cbv zeta. split; [| apply submit_requests].
  unfold submission. destruct (truthy (selectedProductId s)); reflexivity.
Qed.

(** X7. After a resolved submission the message names the product the
    server returned (not the typed fields): "Product updated: <name> -
    $<price>" from edit mode, "Product added: ..." from create mode. The
    stored catalog is then the one of the refresh when the refresh
    resolves; when the refresh is rejected the list is left as it was and
    the error is on screen. *)
Theorem submit_success_reports_server_product env s w p :
  outcome env w (submission s) = inr p ->
  let s' := state (after env (handleAddOrUpdateProduct s) w) in
  responseMessage s'
  = JStr ("Product "
          ++ (if truthy (selectedProductId s) then "updated" else "added")
          ++ ": " ++ to_string (product_name p)
          ++ " - $" ++ to_string (product_price p))
  /\ match outcome_at env (S (issued w)) ListProducts with
     | inr c => products s' = data_products c /\ error s' = error (state w)
     | inl _ => products s' = products (state w) /\ error_shown s'
     end.
Proof.
  intros H. cbv zeta. unfold after, handleAddOrUpdateProduct. cbv zeta.
  rewrite submission_axios. run_out; finish; repeat split.
Qed.

Lemma submit_success_reports_server_product_witness :
  let env := sample_env [] network_error in
  let s' := state (after env (handleAddOrUpdateProduct editing) (world_of editing)) in
  responseMessage s' = JStr "Product updated: Widget - $9.99"
  /\ products s' = [widget].
Proof.
  intros env s'.
  destruct (submit_success_reports_server_product env editing (world_of editing)
              _ eq_refl) as [M P].
  split; [exact M | exact (proj1 P)].
Defined.

(** X8. A delete sends DELETE [/api/products/<id>] for whatever id it is
    given. When the request is rejected the stored list is left as it was
    (nothing is removed locally) and no refresh is made. When it resolves
    the message is "Product deleted successfully" and the catalog is
    fetched again: the stored list is then the one of the refresh, or, if
    the refresh is rejected, the old list behind the error text. *)
Theorem delete_refreshes_on_success env id w :
  let s' := state (after env (handleDeleteProduct id) w) in
  requests (events_of env (handleDeleteProduct id) w)
  = {| wire_method := DELETE; wire_path := "/api/products/" ++ to_string id;
       wire_body := None |}
    :: (if is_resolved (outcome env w (DeleteProduct id))
        then [{| wire_method := GET; wire_path := "/api/products";
                 wire_body := None |}]
        else [])
  /\ match outcome env w (DeleteProduct id) with
     | inl _ => products s' = products (state w)
     | inr _ =>
         responseMessage s' = JStr "Product deleted successfully"
         /\ match outcome_at env (S (issued w)) ListProducts with
            | inr c => products s' = data_products c
            | inl _ => products s' = products (state w) /\ error_shown s'
            end
     end.
Proof.
  cbv zeta. split; [apply delete_requests |].
  unfold after, handleDeleteProduct. run_out.
  - run_catch; reflexivity.
  - finish. repeat split.
  - finish. repeat split.
Qed.

(** X9. Selecting a product sends nothing. When the id of the product is
    truthy the editor is then in edit mode with the name and price of the
    product, the page is headed "Update Product", and a submission sends
    a PUT to [/api/products/<id>] whose body carries that name and
    [parseFloat] of that price. *)
Theorem select_then_submit_updates env product w :
  truthy (product_id product) = true ->
  let w1 := after env (handleSelectProduct product) w in
  events_of env (handleSelectProduct product) w = []
  /\ edit_mode (state w1)
  /\ wire (submission (state w1))
     = {| wire_method := PUT;
          wire_path := "/api/products/" ++ to_string (product_id product);
          wire_body := Some {| body_name := product_name product;
                               body_price := parseFloat (product_price product) |} |}
  /\ (page_shown (state w) ->
      exists pg, render (state w1) = PageView pg
                 /\ page_heading pg = "Update Product"
                 /\ page_submit pg = "Update Product"
                 /\ page_name pg = product_name product
                 /\ page_price pg = product_price product).
Proof.
  intros T. cbv zeta. unfold events_of, after, handleSelectProduct, edit_mode.
  run_out. cbn [setSelectedProductId setProductName setProductPrice
                  selectedProductId productName productPrice].
  rewrite skipn_length_self. unfold submission.
  cbn [setSelectedProductId setProductName setProductPrice
         selectedProductId productName productPrice].
  rewrite T. repeat split.
  intros [L E]. unfold render.
  cbn [setSelectedProductId setProductName setProductPrice
         selectedProductId productName productPrice loading error].
  rewrite L, E, T. eexists. repeat split.
Qed.

Lemma select_then_submit_updates_witness :
  let env := sample_env [] network_error in
  let priced := {| product_id := JNum "3"; product_name := JStr "Gizmo";
                   product_price := JStr "4.50" |} in
  (let w1 := after env (handleSelectProduct widget) (world_of browsing) in
   state w1 = editing
   /\ wire (submission (state w1))
      = {| wire_method := PUT; wire_path := "/api/products/1";
           wire_body := Some {| body_name := JStr "Widget";
                                body_price := NumberOf "9.99" |} |})
  /\ wire_body (wire (submission
                        (state (after env (handleSelectProduct priced)
                                  (world_of browsing)))))
     = Some {| body_name := JStr "Gizmo"; body_price := NumberOf "4.50" |}.
Proof.
  intros env priced. split; [split; [reflexivity |] |].
  - exact (proj1 (proj2 (proj2 (select_then_submit_updates env widget
                                  (world_of browsing) eq_refl)))).
  - rewrite (proj1 (proj2 (proj2 (select_then_submit_updates env priced
                                    (world_of browsing) eq_refl)))).
    reflexivity.
Defined.

(** X10. Selecting a product whose id is falsy (0, the empty string,
    [null], [undefined], NaN) copies its name and price but leaves the
    editor in create mode: the page stays headed "Add New Product", and a
    submission sends a POST to [/api/products] (with that name and
    [parseFloat] of that price), which creates a product instead of
    updating the selected one. *)
Theorem select_falsy_id_creates env product w :
  truthy (product_id product) = false ->
  let w1 := after env (handleSelectProduct product) w in
  create_mode (state w1)
  /\ productName (state w1) = product_name product
  /\ productPrice (state w1) = product_price product
  /\ wire (submission (state w1))
     = {| wire_method := POST; wire_path := "/api/products";
          wire_body := Some {| body_name := product_name product;
                               body_price := parseFloat (product_price product) |} |}
  /\ (page_shown (state w) ->
      exists pg, render (state w1) = PageView pg
                 /\ page_heading pg = "Add New Product"
                 /\ page_submit pg = "Add Product").
Proof.
  intros T. cbv zeta. unfold after, handleSelectProduct, create_mode.
  run_out. unfold submission.
  cbn [setSelectedProductId setProductName setProductPrice
         selectedProductId productName productPrice].
  rewrite T. repeat split.
  intros [L E]. unfold render.
  cbn [setSelectedProductId setProductName setProductPrice
         selectedProductId productName productPrice loading error].
  rewrite L, E, T. eexists. repeat split.
Qed.

Lemma select_falsy_id_creates_witness :
  let env := sample_env [] network_error in
  let zero := {| product_id := JNum "0"; product_name := JStr "Gadget";
                 product_price := JNum "14.5" |} in
  let w1 := after env (handleSelectProduct zero) (world_of browsing) in
  create_mode (state w1)
  /\ wire_method (wire (submission (state w1))) = POST
  /\ wire_path (wire (submission (state w1))) = "/api/products".
Proof.
  intros env zero w1.
  destruct (select_falsy_id_creates env zero (world_of browsing) eq_refl)
    as [C [_ [_ [W _]]]].
  split; [exact C |]. fold w1 in W. rewrite W. split; reflexivity.
Defined.

(** X11. After a resolved submission the editor is empty and in create
    mode, and nothing guards the button: a second click on submit sends a
    POST to [/api/products] whose body carries an empty name and, as the
    price, [parseFloat] of the empty string, which is NaN. *)
Theorem submit_again_posts_empty env s w p :
  outcome env w (submission s) = inr p ->
  wire (submission (state (after env (handleAddOrUpdateProduct s) w)))
  = {| wire_method := POST; wire_path := "/api/products";
       wire_body := Some {| body_name := JStr ""; body_price := NaN |} |}.
Proof.
  intros H. unfold after, handleAddOrUpdateProduct. cbv zeta.
  rewrite submission_axios. run_out; reflexivity.
Qed.

Lemma submit_again_posts_empty_witness :
  let env := sample_env [] network_error in
  requests (events_of env (handleAddOrUpdateProduct editing) (world_of editing))
  = [wire (submission editing); wire ListProducts]
  /\ wire_method
       (wire (submission
                (state (after env (handleAddOrUpdateProduct editing)
                          (world_of editing)))))
     = POST.
Proof.
  intros env. split; [reflexivity |].
  rewrite (submit_again_posts_empty env editing (world_of editing) _ eq_refl).
  reflexivity.
Defined.

(** ** The cache probe, continued *)

(** X12. A probe run starts from blank results: the status lines and the
    overall message it ends with do not depend on what an earlier run or
    an earlier cache clear left there. *)
Theorem probe_results_fresh env w1 w2 :
  issued w1 = issued w2 ->
  cacheTestResults (state (after env testRedisCache w1))
  = cacheTestResults (state (after env testRedisCache w2)).
Proof.
  destruct w1 as [s1 c1 n1 t1], w2 as [s2 c2 n2 t2]. cbn [issued].
  intros <-. unfold after, testRedisCache, secondFetch.
  run_out; reflexivity.
Qed.

Lemma probe_results_fresh_witness :
  let env := sample_env [] network_error in
  let stale :=
    setCacheTestResults
      (fun _ => {| firstFetchStatus := "First Fetch: Cache null";
                   secondFetchStatus := "old";
                   overallMessage := "Failed to clear Redis cache" |})
      browsing in
  cacheTestResults (state (after env testRedisCache (world_of stale)))
  = {| firstFetchStatus := "First Fetch: Cache miss";
       secondFetchStatus := "Second Fetch: Cache hit";
       overallMessage := "Cache test completed. Check the statuses above." |}.
Proof.
  intros env stale.
  rewrite (probe_results_fresh env (world_of stale) (world_of browsing) eq_refl).
  reflexivity.
Defined.

(** X13. When the cache clear and both fetches of a probe run resolve,
    the two status lines print the [cacheStatus] of the first and of the
    second response as they came, the overall message reports
    completion, the stored catalog is the one of the second fetch, and
    neither the handler nor its timer callback rejects. *)
Theorem probe_success_report env w c1 c2 :
  outcome env w ClearCache = inr tt ->
  outcome_at env (S (issued w)) ListProducts = inr c1 ->
  outcome_at env (S (S (issued w))) ListProducts = inr c2 ->
  let s' := state (after env testRedisCache w) in
  cacheTestResults s'
  = {| firstFetchStatus := "First Fetch: Cache " ++ to_string (data_cacheStatus c1);
       secondFetchStatus := "Second Fetch: Cache " ++ to_string (data_cacheStatus c2);
       overallMessage := "Cache test completed. Check the statuses above." |}
  /\ products s' = data_products c2
  /\ snd (exec env testRedisCache w) = inr tt
  /\ unhandled (events_of env testRedisCache w) = [].
Proof.
  intros H H1 H2. cbv zeta. unfold events_of, after, testRedisCache, secondFetch.
  run_out. finish. repeat split.
Qed.

Lemma probe_success_report_witness :
  let env := sample_env [] network_error in
  let s' := state (after env testRedisCache (world_of browsing)) in
  firstFetchStatus (cacheTestResults s') = "First Fetch: Cache miss"
  /\ secondFetchStatus (cacheTestResults s') = "Second Fetch: Cache hit"
  /\ products s' = [widget].
Proof.
  intros env s'.
  destruct (probe_success_report env (world_of browsing) _ _
              eq_refl eq_refl eq_refl) as [R [P _]].
  subst s'. rewrite R. split; [reflexivity |]. split; [reflexivity | exact P].
Defined.

(** ** What the handlers return *)

(** X14. No handler of the page rejects, with one exception: a write
    (submit or delete) whose request is rejected with a response that has
    no body. Its [catch] reads [message] off the absent body, which
    throws, and the promise of the handler rejects with that TypeError.
    No run leaves a rejection of a timer callback behind. *)
Theorem handlers_reject_only_on_bodyless_error env s i w :
  snd (exec env (handler s i) w)
  = match write_of s i with
    | Some m =>
        match mutation_error env w m with
        | Some e =>
            match axios_response e with
            | Some DataNullish => inl message_of_nothing
            | _ => inr tt
            end
        | None => inr tt
        end
    | None => inr tt
    end
  /\ unhandled (events_of env (handler s i) w) = [].
Proof.
  destruct i; cbn [handler write_of]; unfold events_of, after, mutation_error,
    handleSelectProduct, handleDeleteProduct, handleAddOrUpdateProduct,
    fetchQueueMessages, clearQueueMessages, testRedisCache, secondFetch,
    clearRedisCache, message_of_nothing;
    cbv zeta; rewrite ?submission_axios; run_out; try run_catch; finish;
    rewrite ?skipn_length_self; split; reflexivity.
Qed.

(** X15. When a write is rejected with a response that has no body, the
    state is left exactly as it was: no message is set, the fields and
    the list are untouched, and the handler's promise rejects. *)
Theorem bodyless_error_changes_nothing env w e m :
  mutation_rejected env w e m ->
  axios_response e = Some DataNullish ->
  state (after env (mutation_handler m) w) = state w
  /\ snd (exec env (mutation_handler m) w) = inl message_of_nothing
  /\ length (requests (events_of env (mutation_handler m) w)) = 1.
Proof.
  intros H N. split; [| split].
  - rewrite (rejected_mutation_state env w e m H). unfold surfaced.
    now rewrite N.
  - destruct m as [s | id]; cbn [mutation_rejected mutation_handler] in *;
      unfold handleAddOrUpdateProduct, handleDeleteProduct, message_of_nothing;
      cbv zeta; rewrite ?submission_axios; run_out;
      cbn [error_response]; rewrite N; cbn [data_message];
      repeat first [ run_step | rewrite exec_Throw ]; reflexivity.
  - exact (rejected_mutation_requests env w e m H).
Qed.

Lemma bodyless_error_changes_nothing_witness :
  let env := sample_env [0] empty_502 in
  let w := world_of editing in
  mutation_rejected env w empty_502 (Submit editing)
  /\ state (after env (handleAddOrUpdateProduct editing) w) = editing
  /\ snd (exec env (handleAddOrUpdateProduct editing) w) = inl message_of_nothing.
Proof.
  intros env w.
  assert (H : mutation_rejected env w empty_502 (Submit editing)) by reflexivity.
  destruct (bodyless_error_changes_nothing env w empty_502 (Submit editing)
              H eq_refl) as [S [R _]].
  split; [exact H |]. split; [exact S | exact R].
Defined.

(** ** Mounting, loading and sessions *)

(** X16. Mounting sends one request, the GET of [/api/products], and
    always leaves the loading view: the component then shows the page
    with the products of the response, an empty editor in create mode and
    no message, or, when the request is rejected, the error text
    alone. *)
Theorem mount_leaves_loading env :
  let w := mount env in
  loading (state w) = false
  /\ requests (trace w)
     = [{| wire_method := GET; wire_path := "/api/products"; wire_body := None |}]
  /\ render (state w)
     = match outcome_at env 0 ListProducts with
       | inr c =>
           PageView
             {| page_rows := data_products c;
                page_heading := "Add New Product";
                page_name := JStr "";
                page_price := JStr "";
                page_submit := "Add Product";
                page_message := JStr "";
                page_queue := [];
                page_cache := {| firstFetchStatus := ""; secondFetchStatus := "";
                                 overallMessage := "" |} |}
       | inl e =>
           ErrorView (JStr ("Error fetching products: " ++ axios_message e
                            ++ ". Please try again later."))
       end.
Proof.
  cbv zeta. unfold mount. rewrite exec_fetchProducts. unfold fetched.
  norm. destruct (outcome_at env 0 ListProducts) as [e | c];
    cbn [fst state trace with_state log app]; repeat split.
Qed.

Lemma keeps_loading_off_set (f : State -> State) :
  (forall s, loading (f s) = loading s \/ loading (f s) = false) ->
  keeps (fun s => loading s = false) (set f).
Proof.
  intros H. apply keeps_set. intros s L. destruct (H s) as [E | E]; congruence.
Qed.

(** No setter of the component turns [loading] on. *)
Ltac keeps_loading :=
  repeat first
    [ apply keeps_bind; [| intros ?]
    | apply keeps_try_catch; [| intros ?]
    | apply keeps_axios
    | apply keeps_data_message
    | apply keeps_console_error
    | apply keeps_loading_off_set; intros ?; cbn; solve [ auto ]
    | apply keeps_Ret
    | apply keeps_SetTimeout
    | match goal with
      | |- keeps _ (if ?b then _ else _) => destruct b
      | |- keeps _ (match ?o with Some _ => _ | None => _ end) => destruct o
      end ].

Lemma handlers_keep_loading_off s i :
  keeps (fun s => loading s = false) (handler s i).
Proof.
  destruct i; cbn [handler];
    unfold handleSelectProduct, handleDeleteProduct, handleAddOrUpdateProduct,
      fetchQueueMessages, clearQueueMessages, testRedisCache, secondFetch,
      clearRedisCache, setTimeout, fetchProducts;
    cbv zeta; keeps_loading.
Qed.

(** X17. Once the component has left the loading view it never shows it
    again: no interaction, in any session, turns [loading] back on, not
    even a probe or a refresh that is waiting for the server. *)
Theorem loading_never_returns env steps w :
  loading (state w) = false ->
  loading (state (session env steps w)) = false
  /\ render (state (session env steps w)) <> LoadingView.
Proof.
  intros L.
  assert (K : loading (state (session env steps w)) = false).
  { revert w L. unfold session.
    induction steps as [| i steps IH]; intros w L; cbn [fold_left]; [exact L |].
    apply IH. unfold interact.
    destruct (available (state w) i); [| exact L].
    exact (exec_keeps (fun s => loading s = false) env (handler (state w) i) w
             (handlers_keep_loading_off (state w) i) L). }
  split; [exact K |].
  unfold render. rewrite K.
  destruct (truthy (error (state (session env steps w)))); discriminate.
Qed.

Lemma loading_never_returns_witness :
  let env := sample_env [] network_error in
  let w := session env [ClickEdit widget; ClickSubmit; ClickTestCache]
             (world_of browsing) in
  loading (state w) = false /\ issued w = 5.
Proof.
  intros env w. split; [| reflexivity].
  exact (proj1 (loading_never_returns env
                  [ClickEdit widget; ClickSubmit; ClickTestCache]
                  (world_of browsing) eq_refl)).
Defined.

(** X18. The error view does not stop a probe in flight. A rejected
    catalog fetch sets [error] as it settles; when that fetch is the
    first one of a probe run, the timer is still set and, 2000 or more
    later, the second GET of [/api/products] is still sent. When it
    resolves, the stored list is replaced and the probe reports
    completion, all behind the error text, which stays on screen without
    controls. *)
Theorem error_does_not_stop_the_probe env w e c :
  outcome env w ClearCache = inr tt ->
  outcome_at env (S (issued w)) ListProducts = inl e ->
  outcome_at env (S (S (issued w))) ListProducts = inr c ->
  let n := issued w in
  let t1 := (clock w + latency_at env n ClearCache)%N in
  let t2 := (t1 + latency_at env (S n) ListProducts)%N in
  let t3 := (N.max t2 (t2 + probe_delay) + timer_lag env)%N in
  let t4 := (t3 + latency_at env (S (S n)) ListProducts)%N in
  let s' := state (after env testRedisCache w) in
  (forall w0, outcome env w0 ListProducts = inl e ->
              error_shown (state (after env fetchProducts w0)))
  /\ schedule (events_of env testRedisCache w)
     = [Issued n (wire ClearCache) (clock w);
        Settled n true t1;
        Issued (S n) (wire ListProducts) t1;
        Settled (S n) false t2;
        TimerSet probe_delay t2;
        TimerFired t3;
        Issued (S (S n)) (wire ListProducts) t3;
        Settled (S (S n)) true t4]
  /\ (t2 + 2000 <= t3)%N
  /\ products s' = data_products c
  /\ probe_done s'
  /\ error s' = JStr ("Error fetching products: " ++ axios_message e
                      ++ ". Please try again later.")
  /\ error_shown s'
  /\ controls (render s') = [].
Proof.
  intros H H1 H2. cbv zeta.
  assert (F : forall w0, outcome env w0 ListProducts = inl e ->
                         error_shown (state (after env fetchProducts w0))).
  { intros w0 R. unfold after. rewrite exec_fetchProducts. unfold fetched.
    rewrite R. split; reflexivity. }
  assert (S : error_shown (state (after env testRedisCache w))
              /\ error (state (after env testRedisCache w))
                 = JStr ("Error fetching products: " ++ axios_message e
                         ++ ". Please try again later.")
              /\ products (state (after env testRedisCache w)) = data_products c
              /\ probe_done (state (after env testRedisCache w))).
  { unfold after, testRedisCache, secondFetch. run_out. repeat split. }
  destruct S as [S [E [P D]]].
  split; [exact F |]. split.
  { unfold events_of, after, testRedisCache, secondFetch. run_out. finish.
    reflexivity. }
  split; [unfold probe_delay; lia |].
  split; [exact P |]. split; [exact D |]. split; [exact E |].
  split; [exact S | apply error_shown_render; exact S].
Qed.

Lemma error_does_not_stop_the_probe_witness :
  let env := sample_env [1] network_error in
  let w := world_of browsing in
  let s' := state (after env testRedisCache w) in
  error_shown (state (after env fetchProducts
                        (after env (axios ClearCache) w)))
  /\ requests (events_of env testRedisCache w)
     = [wire ClearCache; wire ListProducts; wire ListProducts]
  /\ probe_done s'
  /\ controls (render s') = [].
Proof.
  intros env w s'.
  destruct (error_does_not_stop_the_probe env w network_error
              {| data_products := [widget]; data_cacheStatus := JStr "hit" |}
              eq_refl eq_refl eq_refl)
    as [F [_ [_ [_ [D [_ [_ C]]]]]]].
  split; [apply F; reflexivity |].
  split; [reflexivity |]. split; [exact D | exact C].
Defined.

(** X19. The page offers Edit and Delete exactly for the products of the
    stored list, and its form, queue and cache controls whenever the page
    is on screen; the loading view and the error view offer nothing. *)
Theorem controls_follow_the_list s :
  (forall product,
      In (EditButton product) (controls (render s))
      <-> page_shown s /\ In product (products s))
  /\ (forall id,
         In (DeleteButton id) (controls (render s))
         <-> page_shown s /\ exists product, In product (products s)
                                             /\ product_id product = id)
  /\ (forall c,
         In c [NameInput; PriceInput; SubmitButton; FetchMessagesButton;
               ClearMessagesButton; CacheTestButton; ClearCacheButton] ->
         (In c (controls (render s)) <-> page_shown s)).
Proof.
  unfold render, page_shown.
  destruct (loading s).
  { assert (N : ~ (true = false /\ truthy (error s) = false))
      by (intros [D _]; discriminate D).
    split; [| split]; intros; cbn [controls In]; tauto. }
  destruct (truthy (error s)).
  { assert (N : ~ (false = false /\ true = false))
      by (intros [_ D]; discriminate D).
    split; [| split]; intros; cbn [controls In]; tauto. }
  assert (Y : false = false /\ false = false) by (split; reflexivity).
  cbn [controls page_rows].
  assert (F : forall c,
             In c (flat_map (fun product =>
                               [EditButton product;
                                DeleteButton (product_id product)])
                            (products s))
             <-> exists product, In product (products s)
                                 /\ (c = EditButton product
                                     \/ c = DeleteButton (product_id product))).
  { intros c. rewrite in_flat_map. split; intros [p [I H]]; exists p; split; auto.
    - cbn in H. destruct H as [H | [H | []]]; auto.
    - cbn. destruct H as [H | H]; auto. }
  split; [| split].
  - intros product. rewrite in_app_iff, F. split.
    + intros [[p [I [H | H]]] | H].
      * inversion H; subst. auto.
      * discriminate H.
      * cbn in H. repeat (destruct H as [H | H]; [discriminate H |]).
        contradiction.
    + intros [_ I]. left. exists product. auto.
  - intros id. rewrite in_app_iff, F. split.
    + intros [[p [I [H | H]]] | H].
      * discriminate H.
      * inversion H; subst. split; [auto |]. exists p. auto.
      * cbn in H. repeat (destruct H as [H | H]; [discriminate H |]).
        contradiction.
    + intros [_ [p [I H]]]. left. exists p. subst id. auto.
  - intros c H. rewrite in_app_iff. split; [auto |]. intros _. right. exact H.
Qed.

Lemma controls_follow_the_list_witness :
  In (EditButton widget) (controls (render browsing))
  /\ In (DeleteButton (JNum "1")) (controls (render browsing))
  /\ In SubmitButton (controls (render browsing))
  /\ ~ In (DeleteButton (JNum "2")) (controls (render browsing)).
Proof.
  destruct (controls_follow_the_list browsing) as [E [D F]].
  assert (P : page_shown browsing) by (split; reflexivity).
  split; [apply E; split; [exact P | left; reflexivity] |].
  split; [apply D; split; [exact P |]; exists widget; split;
          [left; reflexivity | reflexivity] |].
  split; [apply F; [cbn; tauto | exact P] |].
  intros I. apply D in I. destruct I as [_ [p [[<- | []] H]]]. discriminate H.
Defined.

(** ** Retries and timers *)

(** X20. Nothing is retried: when the first request of a write, of a
    queue fetch, of a cache clear or of a probe run is rejected, that
    request is the only one the handler sends. *)
Theorem rejected_request_is_not_retried env w e op :
  operation_rejected env w e op ->
  length (requests (events_of env (operation_handler op) w)) = 1
  /\ timers (events_of env (operation_handler op) w) = [].
Proof.
  destruct op as [[s | id] | | |];
    cbn [operation_rejected operation_handler mutation_rejected mutation_handler];
    intros H; unfold events_of, after, handleAddOrUpdateProduct,
      handleDeleteProduct, fetchQueueMessages, clearRedisCache, testRedisCache;
    cbv zeta; rewrite ?submission_axios; run_out; try run_catch; finish;
    split; reflexivity.
Qed.

Lemma rejected_request_is_not_retried_witness :
  let env := sample_env [0] network_error in
  let w := world_of browsing in
  operation_rejected env w network_error QueueFetch
  /\ requests (events_of env fetchQueueMessages w) = [wire FetchQueue].
Proof.
  intros env w.
  assert (H : operation_rejected env w network_error QueueFetch) by reflexivity.
  pose proof (proj1 (rejected_request_is_not_retried env w network_error
                       QueueFetch H)) as L.
  split; [exact H |]. cbn [operation_handler] in L.
  destruct (requests (events_of env fetchQueueMessages w)) as [| r [| r' l]] eqn:R;
    try discriminate L.
  vm_compute in R. injection R as <-. reflexivity.
Defined.

(** X21. Only the probe sets a timer, it sets it once, with the delay of
    2000, and only when its cache clear has resolved; no other handler of
    the page ever waits on a timer. *)
Theorem only_the_probe_sets_a_timer env s i w :
  timers (events_of env (handler s i) w)
  = match i with
    | ClickTestCache =>
        if is_resolved (outcome env w ClearCache) then [2000%N] else []
    | _ => []
    end.
Proof.
  destruct i; cbn [handler]; unfold events_of, after,
    handleSelectProduct, handleDeleteProduct, handleAddOrUpdateProduct,
    fetchQueueMessages, clearQueueMessages, testRedisCache, secondFetch,
    clearRedisCache;
    cbv zeta; rewrite ?submission_axios; run_out; try run_catch; finish;
    rewrite ?skipn_length_self; reflexivity.
Qed.
